(** * Enrichment pipeline and aggregation engine of the taxi analytics backend

    A shallow embedding of [backend/data_processor.py] (classifier rules,
    response parser, per-record enrichment, batch driver) and of
    [database_service.py] (aggregate metrics and their persistence), with the
    properties of the specification stated over it.

    Numbers: Python floats are modelled as exact rationals ([Q], compared
    with [==]); rounding, infinities and NaN are outside the model.  Python
    [int] is [Z].  Dictionaries are [gmap string _]. *)

From Stdlib Require Import ZArith QArith Qminmax Lqa Lia List.
From stdpp Require Import base option list strings gmap pretty.

Set Warnings "-register-all".
Local Open Scope Q_scope.

(** ** Python values, exceptions and arithmetic *)

Module Py.

(** Exceptions (subclasses of [Exception]) with their message. *)
Inductive exn : Type :=
| JSONDecodeError (msg : string)
| TypeError (msg : string)
| AttributeError (msg : string)
| ValueError (msg : string)
| ZeroDivisionError (msg : string)
| OracleError (msg : string).

(** [str(e)] *)
Definition str_exn (e : exn) : string :=
  match e with
  | JSONDecodeError m | TypeError m | AttributeError m
  | ValueError m | ZeroDivisionError m | OracleError m => m
  end.

(** A computation that returns or raises. *)
Inductive result (A : Type) : Type :=
| Ok (a : A)
| Raise (e : exn).
Arguments Ok {A} a.
Arguments Raise {A} e.

Definition bind {A B} (m : result A) (k : A -> result B) : result B :=
  match m with
  | Ok a => k a
  | Raise e => Raise e
  end.

(** [try: body  except Exception as e: handler(e)] *)
Definition try_except {A} (body : result A) (handler : exn -> A) : A :=
  match body with
  | Ok a => a
  | Raise e => handler e
  end.

(** Python numbers: [int] and [float]. *)
Inductive num : Type :=
| NInt (z : Z)
| NFloat (q : Q).

Definition num_val (n : num) : Q :=
  match n with
  | NInt z => inject_Z z
  | NFloat q => q
  end.

(** [a + b], [a * b]: integer when both are, float otherwise. *)
Definition add (a b : num) : num :=
  match a, b with
  | NInt x, NInt y => NInt (x + y)
  | _, _ => NFloat (num_val a + num_val b)
  end.

Definition mul (a b : num) : num :=
  match a, b with
  | NInt x, NInt y => NInt (x * y)
  | _, _ => NFloat (num_val a * num_val b)
  end.

(** [a / b]: true division, a float; raises on a zero divisor. *)
Definition truediv (a b : num) : result num :=
  if Qeq_bool (num_val b) 0
  then Raise (ZeroDivisionError "division by zero")
  else Ok (NFloat (num_val a / num_val b)).

(** [sum(l)]: starts from the integer 0. *)
Definition sum (l : list num) : num := fold_left add l (NInt 0).

(** Values that live in dictionaries and JSON documents. *)
Inductive val : Type :=
| VNone
| VBool (b : bool)
| VNum (n : num)
| VStr (s : string)
| VList (l : list val)
| VDict (d : gmap string val).

Definition type_name (v : val) : string :=
  match v with
  | VNone => "NoneType"
  | VBool _ => "bool"
  | VNum (NInt _) => "int"
  | VNum (NFloat _) => "float"
  | VStr _ => "str"
  | VList _ => "list"
  | VDict _ => "dict"
  end.

(** [obj[k] = v] with a string key. *)
Definition setitem (obj : val) (k : string) (v : val) : result val :=
  match obj with
  | VDict d => Ok (VDict (<[k := v]> d))
  | VList _ => Raise (TypeError "list indices must be integers or slices, not str")
  | _ => Raise (TypeError ("'" ++ type_name obj ++ "' object does not support item assignment"))
  end.

(** [obj.get(k)] and [obj.get(k, default)]: only dictionaries have [get]. *)
Definition get (obj : val) (k : string) (default : val) : result val :=
  match obj with
  | VDict d => Ok (match d !! k with Some v => v | None => default end)
  | _ => Raise (AttributeError ("'" ++ type_name obj ++ "' object has no attribute 'get'"))
  end.

(** [range(start, stop, step)] *)
Definition range (start stop step : Z) : result (list Z) :=
  if (step =? 0)%Z then Raise (ValueError "range() arg 3 must not be zero")
  else
    let len :=
      if (0 <? step)%Z then ((stop - start + step - 1) / step)%Z
      else ((start - stop - step - 1) / (- step))%Z in
    Ok (map (fun k : nat => (start + Z.of_nat k * step)%Z)
          (seq 0 (Z.to_nat len))).

(** A slice bound brought into [0, n]: negative bounds count from the end. *)
Definition slice_bound (n i : Z) : Z :=
  if (i <? 0)%Z then Z.max 0 (i + n) else Z.min i n.

(** [df.iloc[i:j]] and [l[i:j]] *)
Definition iloc {A} (df : list A) (i j : Z) : list A :=
  let n := Z.of_nat (length df) in
  let lo := slice_bound n i in
  let hi := slice_bound n j in
  take (Z.to_nat (hi - lo)) (drop (Z.to_nat lo) df).

(** Comparisons of floats, as booleans. *)
Definition Qltb (x y : Q) : bool := negb (Qle_bool y x).
Definition Qgtb (x y : Q) : bool := Qltb y x.

End Py.

Import Py.

Notation "x <- m ;; k" := (Py.bind m (fun x => k))
  (at level 100, m at next level, right associativity).

(** ** Classifier rules ([TaxiDataProcessor._classify_*]) *)

Definition _classify_area (lat : Q) : string :=
  if Qgtb lat 51.12 then "North"
  else if Qltb lat 51.08 then "South"
  else "Center".

Definition _classify_activity (speed : Q) : string :=
  if Qgtb speed 10 then "High"
  else if Qgtb speed 3 then "Medium"
  else "Low".

Definition _classify_trip_duration (duration : Q) : string :=
  if Qltb duration 10 then "Short"
  else if Qltb duration 30 then "Medium"
  else "Long".

Definition _classify_price (fare distance : Q) : string :=
  if Qgtb distance 0 then
    let price_per_km := fare / distance in
    if Qltb price_per_km 2 then "Low"
    else if Qltb price_per_km 5 then "Medium"
    else if Qltb price_per_km 10 then "High"
    else "Premium"
  else "Unknown".

Definition _calculate_efficiency (speed duration : Q) : Q :=
  let speed_score := Qmin (speed / 60) 1.0 in
  let duration_score := Qmax 0 (1 - (duration - 15) / 30) in
  (speed_score + duration_score) / 2.

(** ** Enrichment engine ([DataInsightsParser], [TaxiDataProcessor]) *)

(** Rows of the two input tables, with the column names of the CSV files. *)
Record GpsRow : Type := {
  randomized_id : option Z;
  lat : Q;
  lng : Q;
  alt : Q;
  spd : Q;
  azm : Q
}.

Record TaxiRow : Type := {
  trip_duration_sec : Z;
  trip_duration_min : Q;
  distance_traveled_Km : Q;
  KPH : Q;
  wait_time_cost : Q;
  distance_cost : Q;
  total_fare_new : Q;
  num_of_passengers : Z;
  surge_applied : bool
}.

(** A data frame: rows with their index label, as [iterrows] yields them. *)
Definition DataFrame (Row : Type) : Type := list (Z * Row).

(** What a chain hands to the oracle: the template variables. *)
Inductive prompt : Type :=
| GpsPrompt (lat lng alt spd azm : Q) (context : string)
| TaxiPrompt (duration distance speed fare : Q) (passengers : Z)
    (surge : bool) (context : string).

Definition vfloat (q : Q) : val := VNum (NFloat q).
Definition vint (z : Z) : val := VNum (NInt z).

(** What the logger receives: a plain message, or the progress message
    [f"Processed {kind} batch {current}/{total}"]. *)
Inductive event : Type :=
| LogInfo (msg : string)
| Progress (kind : string) (current total : Z).

Section Engine.

(** The outside world: the oracle's state and the clock. *)
Context {World : Type}.
(** One blocking call to the language model: a text, or an exception. *)
Variable llm : prompt -> World -> result string * World.
(** [json.loads] *)
Variable json_loads : string -> result val.
(** [pd.Timestamp.now().isoformat()] *)
Variable now_isoformat : World -> string.
(** The format specification [:.2f] *)
Variable format_2f : Q -> string.

(** Computations that read and change the world and may raise. *)
Definition M (A : Type) : Type := World -> result A * World.

Definition mbind {A B} (m : M A) (k : A -> M B) : M B :=
  fun w =>
    match m w with
    | (Ok a, w') => k a w'
    | (Raise e, w') => (Raise e, w')
    end.

Definition lift {A} (r : result A) : M A := fun w => (r, w).

(** [DataInsightsParser.parse] *)
Definition parse (text : string) : M val :=
  fun w =>
    match json_loads text with
    | Raise (JSONDecodeError _) =>
        (Ok (VDict {[ "insights" := VStr text;
                      "confidence" := vfloat 0.7;
                      "processed_at" := VStr (now_isoformat w) ]}), w)
    | r => (r, w)
    end.

(** [LLMChain(llm, prompt, output_parser).run(...)]: the model's text,
    passed through the output parser. *)
Definition chain_run (p : prompt) : M val :=
  mbind (llm p) parse.

(** [str(row.get('randomized_id', idx))] *)
Definition original_id (idx : Z) (row : GpsRow) : val :=
  VStr (pretty (default idx (randomized_id row))).

(** The context string and the template variables of a GPS point. *)
Definition gps_prompt (idx : Z) (row : GpsRow) : prompt :=
  let context :=
    ("GPS point " ++ pretty idx ++ " of batch, speed: "
       ++ format_2f (spd row) ++ " m/s")%string in
  GpsPrompt (lat row) (lng row) (alt row) (spd row) (azm row) context.

(** The [try] block of [process_gps_batch]. *)
Definition gps_try (idx : Z) (row : GpsRow) : M val :=
  mbind (chain_run (gps_prompt idx row)) (fun result =>
  lift (
    result <- setitem result "original_id" (original_id idx row) ;;
    result <- setitem result "lat" (vfloat (lat row)) ;;
    result <- setitem result "lng" (vfloat (lng row)) ;;
    result <- setitem result "alt" (vfloat (alt row)) ;;
    result <- setitem result "spd" (vfloat (spd row)) ;;
    result <- setitem result "azm" (vfloat (azm row)) ;;
    Ok result)).

(** The [except Exception as e] block of [process_gps_batch]. *)
Definition gps_except (idx : Z) (row : GpsRow) (e : exn) : val :=
  VDict {[ "original_id" := original_id idx row;
           "lat" := vfloat (lat row);
           "lng" := vfloat (lng row);
           "alt" := vfloat (alt row);
           "spd" := vfloat (spd row);
           "azm" := vfloat (azm row);
           "area_classification" := VStr (_classify_area (lat row));
           "activity_level" := VStr (_classify_activity (spd row));
           "road_type" := VStr "Unknown";
           "insights" := VStr ("Error processing: " ++ str_exn e) ]}.

(** One iteration of the loop: the record appended to [results]. *)
Definition gps_record (idx : Z) (row : GpsRow) (w : World) : val * World :=
  let '(r, w') := gps_try idx row w in
  (try_except r (gps_except idx row), w').

Fixpoint gps_loop (rows : DataFrame GpsRow) (results : list val)
    (w : World) : list val * World :=
  match rows with
  | [] => (results, w)
  | (idx, row) :: rest =>
      let '(rec, w') := gps_record idx row w in
      gps_loop rest (results ++ [rec]) w'
  end.

Definition process_gps_batch (gps_data : DataFrame GpsRow) (w : World)
    : list val * World :=
  gps_loop gps_data [] w.

(** The context string and the template variables of a trip. *)
Definition taxi_prompt (idx : Z) (row : TaxiRow) : prompt :=
  let context :=
    ("Taxi trip " ++ pretty idx ++ " of batch, "
       ++ pretty (num_of_passengers row) ++ " passengers")%string in
  TaxiPrompt (trip_duration_min row) (distance_traveled_Km row) (KPH row)
    (total_fare_new row) (num_of_passengers row) (surge_applied row) context.

(** The [try] block of [process_taxi_batch]. *)
Definition taxi_try (idx : Z) (row : TaxiRow) : M val :=
  mbind (chain_run (taxi_prompt idx row)) (fun result =>
  lift (
    result <- setitem result "trip_duration_sec" (vint (trip_duration_sec row)) ;;
    result <- setitem result "trip_duration_min" (vfloat (trip_duration_min row)) ;;
    result <- setitem result "distance_traveled_km" (vfloat (distance_traveled_Km row)) ;;
    result <- setitem result "kph" (vfloat (KPH row)) ;;
    result <- setitem result "wait_time_cost" (vfloat (wait_time_cost row)) ;;
    result <- setitem result "distance_cost" (vfloat (distance_cost row)) ;;
    result <- setitem result "total_fare_new" (vfloat (total_fare_new row)) ;;
    result <- setitem result "num_of_passengers" (vint (num_of_passengers row)) ;;
    result <- setitem result "surge_applied" (VBool (surge_applied row)) ;;
    Ok result)).

(** The [except Exception as e] block of [process_taxi_batch]. *)
Definition taxi_except (idx : Z) (row : TaxiRow) (e : exn) : val :=
  VDict {[ "trip_duration_sec" := vint (trip_duration_sec row);
           "trip_duration_min" := vfloat (trip_duration_min row);
           "distance_traveled_km" := vfloat (distance_traveled_Km row);
           "kph" := vfloat (KPH row);
           "wait_time_cost" := vfloat (wait_time_cost row);
           "distance_cost" := vfloat (distance_cost row);
           "total_fare_new" := vfloat (total_fare_new row);
           "num_of_passengers" := vint (num_of_passengers row);
           "surge_applied" := VBool (surge_applied row);
           "trip_category" :=
             VStr (_classify_trip_duration (trip_duration_min row));
           "price_category" :=
             VStr (_classify_price (total_fare_new row)
                     (distance_traveled_Km row));
           "efficiency_score" :=
             vfloat (_calculate_efficiency (KPH row) (trip_duration_min row));
           "insights" := VStr ("Error processing: " ++ str_exn e) ]}.

Definition taxi_record (idx : Z) (row : TaxiRow) (w : World) : val * World :=
  let '(r, w') := taxi_try idx row w in
  (try_except r (taxi_except idx row), w').

Fixpoint taxi_loop (rows : DataFrame TaxiRow) (results : list val)
    (w : World) : list val * World :=
  match rows with
  | [] => (results, w)
  | (idx, row) :: rest =>
      let '(rec, w') := taxi_record idx row w in
      taxi_loop rest (results ++ [rec]) w'
  end.

Definition process_taxi_batch (taxi_data : DataFrame TaxiRow) (w : World)
    : list val * World :=
  taxi_loop taxi_data [] w.

(** *** Batch driver ([process_all_data]) *)

(** [config.BATCH_SIZE] *)
Variable BATCH_SIZE : Z.

(** [for i in range(0, len(df), BATCH_SIZE): ...] over the offsets that
    [range] produced. *)
Fixpoint batch_loop {Row : Type}
    (process_batch : DataFrame Row -> World -> list val * World)
    (kind : string) (df : DataFrame Row) (offsets : list Z)
    (results : list val) (log : list event) (w : World)
    : list val * list event * World :=
  match offsets with
  | [] => (results, log, w)
  | i :: rest =>
      let batch := iloc df i (i + BATCH_SIZE) in
      let '(batch_results, w') := process_batch batch w in
      let n := Z.of_nat (length df) in
      batch_loop process_batch kind df rest
        (results ++ batch_results)
        (log ++ [Progress kind (i / BATCH_SIZE + 1)
                   ((n - 1) / BATCH_SIZE + 1)])%Z
        w'
  end.

(** [process_all_data], from the two tables that [pd.read_csv] returned. *)
Definition process_all_data (gps_df : DataFrame GpsRow)
    (taxi_df : DataFrame TaxiRow) (w : World)
    : result (list val * list val * list event * World) :=
  let log := [LogInfo "Loading GPS data..."; LogInfo "Loading taxi data...";
              LogInfo "Processing GPS data..."] in
  offsets <- range 0 (Z.of_nat (length gps_df)) BATCH_SIZE ;;
  let '(gps_results, log, w) :=
    batch_loop process_gps_batch "GPS" gps_df offsets [] log w in
  let log := log ++ [LogInfo "Processing taxi data..."] in
  offsets <- range 0 (Z.of_nat (length taxi_df)) BATCH_SIZE ;;
  let '(taxi_results, log, w) :=
    batch_loop process_taxi_batch "taxi" taxi_df offsets [] log w in
  Ok (gps_results, taxi_results, log, w).

End Engine.

Module config.
Definition BATCH_SIZE : Z := 1000.
Definition MAX_RETRIES : Z := 3.
Definition TIMEOUT : Z := 30.
End config.

(** ** Persistence schema ([models.py]) *)

Module ProcessedGPSData.
Record t : Type := {
  original_id : string;
  lat : Q;
  lng : Q;
  alt : Q;
  spd : Q;
  azm : Q;
  area_classification : string;
  activity_level : string;
  road_type : string;
  insights : string
}.
End ProcessedGPSData.

Module ProcessedTaxiData.
Record t : Type := {
  trip_duration_sec : Z;
  trip_duration_min : Q;
  distance_traveled_km : Q;
  kph : Q;
  wait_time_cost : Q;
  distance_cost : Q;
  total_fare_new : Q;
  num_of_passengers : Z;
  surge_applied : bool;
  trip_category : string;
  price_category : string;
  efficiency_score : Q;
  insights : string
}.
End ProcessedTaxiData.

Module AnalyticsMetrics.
Record t : Type := {
  metric_name : string;
  metric_value : val;
  metric_type : val;
  description : val;
  calculated_at : string
}.
End AnalyticsMetrics.

(** The tables behind a database session. *)
Record Session : Type := {
  processed_gps_data : list ProcessedGPSData.t;
  processed_taxi_data : list ProcessedTaxiData.t;
  analytics_metrics : list AnalyticsMetrics.t
}.

(** ** Aggregator and metric persistence ([DatabaseService]) *)

(** [sum([r[0] for r in rows]) / len(rows) if rows else 0] *)
Definition average (rows : list Q) : result num :=
  match rows with
  | [] => Ok (NInt 0)
  | _ :: _ =>
      truediv (Py.sum (map NFloat rows)) (NInt (Z.of_nat (length rows)))
  end.

(** [DatabaseService.calculate_aggregate_metrics] *)
Definition calculate_aggregate_metrics (db : Session)
    : result (gmap string val) :=
  let gps_count := Z.of_nat (length (processed_gps_data db)) in
  avg_speed <-
    average (map ProcessedGPSData.spd
               (List.filter (fun r => Qgtb (ProcessedGPSData.spd r) 0)
                  (processed_gps_data db))) ;;
  let taxi_count := Z.of_nat (length (processed_taxi_data db)) in
  avg_fare <-
    average (map ProcessedTaxiData.total_fare_new (processed_taxi_data db)) ;;
  avg_duration <-
    average (map ProcessedTaxiData.trip_duration_min (processed_taxi_data db)) ;;
  avg_distance <-
    average (map ProcessedTaxiData.distance_traveled_km
               (processed_taxi_data db)) ;;
  let surge_trips :=
    Z.of_nat (length (List.filter ProcessedTaxiData.surge_applied
                        (processed_taxi_data db))) in
  surge_percentage <-
    (if (0 <? taxi_count)%Z
     then x <- truediv (NInt surge_trips) (NInt taxi_count) ;;
          Ok (mul x (NInt 100))
     else Ok (NInt 0)) ;;
  price_per_km_tenge <-
    (if Qgtb (num_val avg_distance) 0
     then x <- truediv avg_fare avg_distance ;; Ok (mul x (NInt 541))
     else Ok (NInt 0)) ;;
  Ok {[ "gps_points_count" := VNum (NInt gps_count);
        "avg_speed_mps" := VNum avg_speed;
        "avg_speed_kmh" := VNum (mul avg_speed (NFloat 3.6));
        "taxi_trips_count" := VNum (NInt taxi_count);
        "avg_fare_usd" := VNum avg_fare;
        "avg_fare_tenge" := VNum (mul avg_fare (NInt 541));
        "avg_trip_duration_min" := VNum avg_duration;
        "avg_distance_km" := VNum avg_distance;
        "surge_percentage" := VNum surge_percentage;
        "price_per_km_tenge" := VNum price_per_km_tenge ]}.

(** The body of the [try] block of [save_analytics_metrics]: the record
    built from one item of the mapping. *)
Definition metric_record (utcnow : string) (metric_name : string)
    (metric_data : val) : result AnalyticsMetrics.t :=
  value <- get metric_data "value" VNone ;;
  type <- get metric_data "type" (VStr "CALCULATED") ;;
  description <- get metric_data "description" (VStr "") ;;
  Ok {| AnalyticsMetrics.metric_name := metric_name;
        AnalyticsMetrics.metric_value := value;
        AnalyticsMetrics.metric_type := type;
        AnalyticsMetrics.description := description;
        AnalyticsMetrics.calculated_at := utcnow |}.

(** [DatabaseService.save_analytics_metrics]: the number of records saved
    and the session after the commit. *)
Definition save_analytics_metrics (utcnow : string)
    (metrics : gmap string val) (db : Session) : Z * Session :=
  let '(saved_count, added) :=
    fold_left
      (fun (acc : Z * list AnalyticsMetrics.t) (item : string * val) =>
         let '(saved_count, added) := acc in
         let '(metric_name, metric_data) := item in
         try_except
           (metric_record <- metric_record utcnow metric_name metric_data ;;
            Ok ((saved_count + 1)%Z, added ++ [metric_record]))
           (fun e => (saved_count, added)))
      (map_to_list metrics) (0%Z, []) in
  (saved_count,
   {| processed_gps_data := processed_gps_data db;
      processed_taxi_data := processed_taxi_data db;
      analytics_metrics := analytics_metrics db ++ added |}).


(** ** Shapes of enriched records, as the specification describes them *)

(** A GPS record classified by the fallback rules: raw fields carried over,
    labels from the classifier rules, road type Unknown, and an error
    description as insight. *)
Definition gps_fallback (row : GpsRow) (out : val) : Prop :=
  exists (d : gmap string val) (msg : string),
    out = VDict d /\
    d !! "lat" = Some (vfloat (lat row)) /\
    d !! "lng" = Some (vfloat (lng row)) /\
    d !! "alt" = Some (vfloat (alt row)) /\
    d !! "spd" = Some (vfloat (spd row)) /\
    d !! "azm" = Some (vfloat (azm row)) /\
    d !! "area_classification" = Some (VStr (_classify_area (lat row))) /\
    d !! "activity_level" = Some (VStr (_classify_activity (spd row))) /\
    d !! "road_type" = Some (VStr "Unknown") /\
    d !! "insights" = Some (VStr ("Error processing: " ++ msg)).

(** A trip record classified by the fallback rules. *)
Definition taxi_fallback (row : TaxiRow) (out : val) : Prop :=
  exists (d : gmap string val) (msg : string),
    out = VDict d /\
    d !! "trip_duration_sec" = Some (vint (trip_duration_sec row)) /\
    d !! "trip_duration_min" = Some (vfloat (trip_duration_min row)) /\
    d !! "distance_traveled_km" = Some (vfloat (distance_traveled_Km row)) /\
    d !! "kph" = Some (vfloat (KPH row)) /\
    d !! "wait_time_cost" = Some (vfloat (wait_time_cost row)) /\
    d !! "distance_cost" = Some (vfloat (distance_cost row)) /\
    d !! "total_fare_new" = Some (vfloat (total_fare_new row)) /\
    d !! "num_of_passengers" = Some (vint (num_of_passengers row)) /\
    d !! "surge_applied" = Some (VBool (surge_applied row)) /\
    d !! "trip_category" =
      Some (VStr (_classify_trip_duration (trip_duration_min row))) /\
    d !! "price_category" =
      Some (VStr (_classify_price (total_fare_new row)
                    (distance_traveled_Km row))) /\
    d !! "efficiency_score" =
      Some (vfloat (_calculate_efficiency (KPH row) (trip_duration_min row))) /\
    d !! "insights" = Some (VStr ("Error processing: " ++ msg)).

(** ** The batch driver, as the specification describes it *)

(** Processing a list of batches strictly in sequence, each batch fully
    completed before the next begins, extending the results. *)
Fixpoint run_batches {World Row : Type}
    (process_batch : DataFrame Row -> World -> list val * World)
    (batches : list (DataFrame Row)) (results : list val) (w : World)
    : list val * World :=
  match batches with
  | [] => (results, w)
  | batch :: rest =>
      let '(batch_results, w') := process_batch batch w in
      run_batches process_batch rest (results ++ batch_results) w'
  end.

(** Contiguous, non-overlapping slices of [df] in original order: their
    concatenation is [df], no slice is empty or longer than [size], and
    only the last one may be shorter. *)
Definition batch_partition {Row : Type} (size : Z) (df : DataFrame Row)
    (batches : list (DataFrame Row)) : Prop :=
  concat batches = df /\
  forall (k : nat) (batch : DataFrame Row),
    batches !! k = Some batch ->
    (0 < Z.of_nat (length batch) <= size)%Z /\
    ((S k < length batches)%nat -> Z.of_nat (length batch) = size).

(** The progress signals of one kind in a log: (current, total) pairs. *)
Definition progress_signals (kind : string) (log : list event)
    : list (Z * Z) :=
  flat_map (fun e =>
              match e with
              | Progress k current total =>
                  if String.eqb k kind then [(current, total)] else []
              | LogInfo _ => []
              end) log.

(** The signals 1/total, 2/total, ..., total/total. *)
Definition counting_up (total : nat) : list (Z * Z) :=
  map (fun k : nat => ((Z.of_nat k + 1)%Z, Z.of_nat total)) (seq 0 total).

(** ** Aggregate metrics, as the specification describes them *)

Definition Qsum (l : list Q) : Q := fold_right Qplus 0 l.

(** The mean of a list of values; 0 if the list is empty. *)
Definition mean (l : list Q) : Q :=
  match l with
  | [] => 0
  | _ :: _ => Qsum l / inject_Z (Z.of_nat (length l))
  end.

(** The mapping [m] gives the metric [name] the numeric value [q]. *)
Definition metric (m : gmap string val) (name : string) (q : Q) : Prop :=
  exists n : num, m !! name = Some (VNum n) /\ num_val n == q.

(** The speeds of the persisted GPS points with [speed > 0]. *)
Definition positive_speeds (db : Session) : list Q :=
  List.filter (fun s => Qltb 0 s)
    (map ProcessedGPSData.spd (processed_gps_data db)).

(** ** Test doubles and sample data *)

Module Fixtures.

(** An oracle that times out on every call; its state counts the calls. *)
Definition failing_llm (p : prompt) (calls : nat) : result string * nat :=
  (Raise (OracleError "Request timed out."), S calls).

(** An oracle that always answers with the same text. *)
Definition canned_llm (text : string) (p : prompt) (calls : nat)
    : result string * nat :=
  (Ok text, S calls).

(** A stand-in for [json.loads] that knows two documents. *)
Definition toy_json_loads (s : string) : result val :=
  if String.eqb s "[1, 2]" then Ok (VList [vint 1; vint 2])
  else if String.eqb s "{}" then Ok (VDict ∅)
  else Raise (JSONDecodeError "Expecting value: line 1 column 1 (char 0)").

Definition clock (calls : nat) : string := "2024-05-01T12:00:00".

Definition two_decimals (q : Q) : string := "0.00".

Definition gps0 : GpsRow :=
  {| randomized_id := Some 7%Z; lat := 51.1; lng := 71.4; alt := 350;
     spd := 12.5; azm := 90 |}.

Definition gps1 : GpsRow :=
  {| randomized_id := None; lat := 51.2; lng := 71.5; alt := 340;
     spd := 0; azm := 180 |}.

Definition trip0 : TaxiRow :=
  {| trip_duration_sec := 300; trip_duration_min := 5;
     distance_traveled_Km := 4; KPH := 48; wait_time_cost := 0;
     distance_cost := 9; total_fare_new := 10; num_of_passengers := 2;
     surge_applied := true |}.

Definition gps_table : DataFrame GpsRow :=
  [(0%Z, gps0); (1%Z, gps1); (2%Z, gps0); (3%Z, gps1); (4%Z, gps0)].

(** A table of 2500 GPS points with the default integer index. *)
Definition gps_table_2500 : DataFrame GpsRow :=
  map (fun k : nat => (Z.of_nat k, if Nat.even k then gps0 else gps1))
    (seq 0 2500).

Definition taxi_table : DataFrame TaxiRow :=
  [(0%Z, trip0); (1%Z, trip0); (2%Z, trip0)].

Definition stored_point (speed : Q) : ProcessedGPSData.t :=
  {| ProcessedGPSData.original_id := "7";
     ProcessedGPSData.lat := 51.1; ProcessedGPSData.lng := 71.4;
     ProcessedGPSData.alt := 350; ProcessedGPSData.spd := speed;
     ProcessedGPSData.azm := 90;
     ProcessedGPSData.area_classification := "Center";
     ProcessedGPSData.activity_level := "High";
     ProcessedGPSData.road_type := "Unknown";
     ProcessedGPSData.insights := "{}" |}.

Definition stored_trip (fare distance : Q) (surge : bool)
    : ProcessedTaxiData.t :=
  {| ProcessedTaxiData.trip_duration_sec := 300;
     ProcessedTaxiData.trip_duration_min := 5;
     ProcessedTaxiData.distance_traveled_km := distance;
     ProcessedTaxiData.kph := 48;
     ProcessedTaxiData.wait_time_cost := 0;
     ProcessedTaxiData.distance_cost := 9;
     ProcessedTaxiData.total_fare_new := fare;
     ProcessedTaxiData.num_of_passengers := 2;
     ProcessedTaxiData.surge_applied := surge;
     ProcessedTaxiData.trip_category := "Short";
     ProcessedTaxiData.price_category := "Medium";
     ProcessedTaxiData.efficiency_score := 1;
     ProcessedTaxiData.insights := "{}" |}.

Definition corpus : Session :=
  {| processed_gps_data := [stored_point 10; stored_point 0; stored_point 20];
     processed_taxi_data := [stored_trip 10 4 true; stored_trip 30 6 false];
     analytics_metrics := [] |}.

Definition empty_corpus : Session :=
  {| processed_gps_data := []; processed_taxi_data := [];
     analytics_metrics := [] |}.

End Fixtures.

(** ** Further shapes of enriched records *)





(** ** Further descriptions of the aggregate metrics *)

(** The names under which the aggregator reports. *)
Definition metric_names : list string :=
  ["gps_points_count"; "avg_speed_mps"; "avg_speed_kmh"; "taxi_trips_count";
   "avg_fare_usd"; "avg_fare_tenge"; "avg_trip_duration_min";
   "avg_distance_km"; "surge_percentage"; "price_per_km_tenge"].

(** The persisted trips with surge pricing applied. *)
Definition surge_trips (db : Session) : list ProcessedTaxiData.t :=
  List.filter ProcessedTaxiData.surge_applied (processed_taxi_data db).

(** ** Writing enriched records ([DatabaseService.save_gps_data],
    [DatabaseService.save_taxi_data]) *)

(** [ProcessedGPSData(...)] as the code constructs it: every column holds
    what [data.get] returned, [insights] the serialised text.  The database
    commit and the column types it enforces are not part of the model. *)
Module GpsObject.
Record t : Type := {
  original_id : val;
  lat : val;
  lng : val;
  alt : val;
  spd : val;
  azm : val;
  area_classification : val;
  activity_level : val;
  road_type : val;
  insights : string
}.
End GpsObject.

(** [ProcessedTaxiData(...)] as the code constructs it. *)
Module TaxiObject.
Record t : Type := {
  trip_duration_sec : val;
  trip_duration_min : val;
  distance_traveled_km : val;
  kph : val;
  wait_time_cost : val;
  distance_cost : val;
  total_fare_new : val;
  num_of_passengers : val;
  surge_applied : val;
  trip_category : val;
  price_category : val;
  efficiency_score : val;
  insights : string
}.
End TaxiObject.

Section Saving.

(** [json.dumps] *)
Variable json_dumps : val -> result string.

(** The constructor call in the [try] block of [save_gps_data]. *)
Definition gps_object (data : val) : result GpsObject.t :=
  original_id <- get data "original_id" VNone ;;
  lat <- get data "lat" VNone ;;
  lng <- get data "lng" VNone ;;
  alt <- get data "alt" VNone ;;
  spd <- get data "spd" VNone ;;
  azm <- get data "azm" VNone ;;
  area_classification <- get data "area_classification" VNone ;;
  activity_level <- get data "activity_level" VNone ;;
  road_type <- get data "road_type" VNone ;;
  insights <- get data "insights" (VDict ∅) ;;
  insights <- json_dumps insights ;;
  Ok {| GpsObject.original_id := original_id;
        GpsObject.lat := lat;
        GpsObject.lng := lng;
        GpsObject.alt := alt;
        GpsObject.spd := spd;
        GpsObject.azm := azm;
        GpsObject.area_classification := area_classification;
        GpsObject.activity_level := activity_level;
        GpsObject.road_type := road_type;
        GpsObject.insights := insights |}.

(** [DatabaseService.save_gps_data]: the count it returns and the objects
    it added to the session, in order. *)
Definition save_gps_data (gps_data : list val) : Z * list GpsObject.t :=
  fold_left
    (fun (acc : Z * list GpsObject.t) (data : val) =>
       let '(saved_count, added) := acc in
       try_except
         (gps_record <- gps_object data ;;
          Ok ((saved_count + 1)%Z, added ++ [gps_record]))
         (fun e => (saved_count, added)))
    gps_data (0%Z, []).

(** The constructor call in the [try] block of [save_taxi_data]. *)
Definition taxi_object (data : val) : result TaxiObject.t :=
  trip_duration_sec <- get data "trip_duration_sec" VNone ;;
  trip_duration_min <- get data "trip_duration_min" VNone ;;
  distance_traveled_km <- get data "distance_traveled_km" VNone ;;
  kph <- get data "kph" VNone ;;
  wait_time_cost <- get data "wait_time_cost" VNone ;;
  distance_cost <- get data "distance_cost" VNone ;;
  total_fare_new <- get data "total_fare_new" VNone ;;
  num_of_passengers <- get data "num_of_passengers" VNone ;;
  surge_applied <- get data "surge_applied" VNone ;;
  trip_category <- get data "trip_category" VNone ;;
  price_category <- get data "price_category" VNone ;;
  efficiency_score <- get data "efficiency_score" VNone ;;
  insights <- get data "insights" (VDict ∅) ;;
  insights <- json_dumps insights ;;
  Ok {| TaxiObject.trip_duration_sec := trip_duration_sec;
        TaxiObject.trip_duration_min := trip_duration_min;
        TaxiObject.distance_traveled_km := distance_traveled_km;
        TaxiObject.kph := kph;
        TaxiObject.wait_time_cost := wait_time_cost;
        TaxiObject.distance_cost := distance_cost;
        TaxiObject.total_fare_new := total_fare_new;
        TaxiObject.num_of_passengers := num_of_passengers;
        TaxiObject.surge_applied := surge_applied;
        TaxiObject.trip_category := trip_category;
        TaxiObject.price_category := price_category;
        TaxiObject.efficiency_score := efficiency_score;
        TaxiObject.insights := insights |}.

(** [DatabaseService.save_taxi_data] *)
Definition save_taxi_data (taxi_data : list val) : Z * list TaxiObject.t :=
  fold_left
    (fun (acc : Z * list TaxiObject.t) (data : val) =>
       let '(saved_count, added) := acc in
       try_except
         (taxi_record <- taxi_object data ;;
          Ok ((saved_count + 1)%Z, added ++ [taxi_record]))
         (fun e => (saved_count, added)))
    taxi_data (0%Z, []).

End Saving.



(** ** Reading metrics back ([DatabaseService.get_analytics_metrics]) *)

(** [DatabaseService.get_analytics_metrics]: the dictionary comprehension
    over the stored records; a later record of the same name replaces an
    earlier one. *)
Definition get_analytics_metrics (db : Session) : gmap string val :=
  fold_left
    (fun (acc : gmap string val) (record : AnalyticsMetrics.t) =>
       <[AnalyticsMetrics.metric_name record :=
           VDict {[ "value" := AnalyticsMetrics.metric_value record;
                    "type" := AnalyticsMetrics.metric_type record;
                    "description" := AnalyticsMetrics.description record;
                    "calculated_at" :=
                      VStr (AnalyticsMetrics.calculated_at record) ]}]> acc)
    (analytics_metrics db) ∅.

(** A metric structure that fits the columns of [AnalyticsMetrics]: a
    float (or nothing) as value, strings (or nothing) as type and
    description.  On these the stored record holds the very objects given,
    so that the model agrees with a database that converts column types. *)
Definition fits_metric_columns (d : gmap string val) : Prop :=
  (d !! "value" = None \/ d !! "value" = Some VNone \/
   exists q, d !! "value" = Some (vfloat q)) /\
  (d !! "type" = None \/ exists s, d !! "type" = Some (VStr s)) /\
  (d !! "description" = None \/ exists s, d !! "description" = Some (VStr s)).

(** The record that [save_analytics_metrics] builds from a structure. *)
Definition stored_metric (utcnow : string) (item : string * val)
    : AnalyticsMetrics.t :=
  let d := match item.2 with VDict d => d | _ => ∅ end in
  {| AnalyticsMetrics.metric_name := item.1;
     AnalyticsMetrics.metric_value := default VNone (d !! "value");
     AnalyticsMetrics.metric_type := default (VStr "CALCULATED") (d !! "type");
     AnalyticsMetrics.description := default (VStr "") (d !! "description");
     AnalyticsMetrics.calculated_at := utcnow |}.

(** ** Reading records back ([DatabaseService.get_gps_data],
    [DatabaseService.get_taxi_data], the heat maps) *)

(** [if area:] and [if trip_category:]: the filter applies for a non-empty
    string only. *)
Definition active_filter (value : option string) : option string :=
  match value with
  | Some s => if String.eqb s "" then None else Some s
  | None => None
  end.

(** [query.limit(limit)], as the configured SQLite database reads it: a
    negative limit is no limit. *)
Definition sql_limit {A : Type} (limit : Z) (rows : list A) : list A :=
  if (limit <? 0)%Z then rows else take (Z.to_nat limit) rows.

(** A list comprehension whose element expression may raise: the first
    exception ends it. *)
Fixpoint comprehension {A B : Type} (f : A -> result B) (l : list A)
    : result (list B) :=
  match l with
  | [] => Ok []
  | x :: rest =>
      y <- f x ;;
      ys <- comprehension f rest ;;
      Ok (y :: ys)
  end.

Section Reading.

(** [json.loads] *)
Variable json_loads : string -> result val.

(** [json.loads(record.insights) if record.insights else {}] *)
Definition load_insights (insights : string) : result val :=
  if String.eqb insights "" then Ok (VDict ∅) else json_loads insights.

(** The dictionary built for one stored GPS point; a table row comes with
    its primary key. *)
Definition gps_data_item (entry : Z * ProcessedGPSData.t) : result val :=
  let '(id, record) := entry in
  insights <- load_insights (ProcessedGPSData.insights record) ;;
  Ok (VDict
        {[ "id" := vint id;
           "lat" := vfloat (ProcessedGPSData.lat record);
           "lng" := vfloat (ProcessedGPSData.lng record);
           "alt" := vfloat (ProcessedGPSData.alt record);
           "spd" := vfloat (ProcessedGPSData.spd record);
           "azm" := vfloat (ProcessedGPSData.azm record);
           "area_classification" :=
             VStr (ProcessedGPSData.area_classification record);
           "activity_level" := VStr (ProcessedGPSData.activity_level record);
           "road_type" := VStr (ProcessedGPSData.road_type record);
           "insights" := insights ]}).

(** The rows that the query of [get_gps_data] selects, in table order. *)
Definition gps_query (table : list (Z * ProcessedGPSData.t)) (limit : Z)
    (area : option string) : list (Z * ProcessedGPSData.t) :=
  let query :=
    match active_filter area with
    | Some a =>
        List.filter
          (fun entry =>
             String.eqb (ProcessedGPSData.area_classification entry.2) a)
          table
    | None => table
    end in
  sql_limit limit query.

(** [DatabaseService.get_gps_data(limit, area)] over the stored rows. *)
Definition get_gps_data (table : list (Z * ProcessedGPSData.t)) (limit : Z)
    (area : option string) : result (list val) :=
  comprehension gps_data_item (gps_query table limit area).

(** The dictionary built for one stored trip. *)
Definition taxi_data_item (entry : Z * ProcessedTaxiData.t) : result val :=
  let '(id, record) := entry in
  insights <- load_insights (ProcessedTaxiData.insights record) ;;
  Ok (VDict
        {[ "id" := vint id;
           "trip_duration_min" :=
             vfloat (ProcessedTaxiData.trip_duration_min record);
           "distance_traveled_km" :=
             vfloat (ProcessedTaxiData.distance_traveled_km record);
           "kph" := vfloat (ProcessedTaxiData.kph record);
           "total_fare_new" := vfloat (ProcessedTaxiData.total_fare_new record);
           "num_of_passengers" :=
             vint (ProcessedTaxiData.num_of_passengers record);
           "surge_applied" := VBool (ProcessedTaxiData.surge_applied record);
           "trip_category" := VStr (ProcessedTaxiData.trip_category record);
           "price_category" := VStr (ProcessedTaxiData.price_category record);
           "efficiency_score" :=
             vfloat (ProcessedTaxiData.efficiency_score record);
           "insights" := insights ]}).

Definition taxi_query (table : list (Z * ProcessedTaxiData.t)) (limit : Z)
    (trip_category : option string) : list (Z * ProcessedTaxiData.t) :=
  let query :=
    match active_filter trip_category with
    | Some c =>
        List.filter
          (fun entry =>
             String.eqb (ProcessedTaxiData.trip_category entry.2) c)
          table
    | None => table
    end in
  sql_limit limit query.

(** [DatabaseService.get_taxi_data(limit, trip_category)] *)
Definition get_taxi_data (table : list (Z * ProcessedTaxiData.t)) (limit : Z)
    (trip_category : option string) : result (list val) :=
  comprehension taxi_data_item (taxi_query table limit trip_category).

End Reading.

(** [DatabaseService.get_heatmap_data] *)
Definition get_heatmap_data (db : Session) : list (list Q) :=
  map (fun record =>
         [ProcessedGPSData.lat record; ProcessedGPSData.lng record;
          ProcessedGPSData.spd record])
    (processed_gps_data db).

(** [DatabaseService.get_speed_heatmap_data] *)
Definition get_speed_heatmap_data (db : Session) : list (list Q) :=
  map (fun record =>
         [ProcessedGPSData.lat record; ProcessedGPSData.lng record;
          ProcessedGPSData.spd record])
    (List.filter (fun record => Qgtb (ProcessedGPSData.spd record) 0)
       (processed_gps_data db)).

(** [DatabaseService.get_altitude_heatmap_data] *)
Definition get_altitude_heatmap_data (db : Session) : list (list Q) :=
  map (fun record =>
         [ProcessedGPSData.lat record; ProcessedGPSData.lng record;
          ProcessedGPSData.alt record])
    (List.filter (fun record => Qgtb (ProcessedGPSData.alt record) 0)
       (processed_gps_data db)).

(** The endpoint [get_heatmap_data(heatmap_type)] of [main.py]. *)
Module main.
Definition get_heatmap_data (heatmap_type : string) (db : Session)
    : list (list Q) :=
  if String.eqb heatmap_type "speed" then get_speed_heatmap_data db
  else if String.eqb heatmap_type "altitude" then get_altitude_heatmap_data db
  else get_heatmap_data db.
End main.

(** The weight of a heat-map point: its third coordinate. *)
Definition weight (point : list Q) : Q := nth 2 point 0.

(** The position of a heat-map point: its first two coordinates. *)
Definition position (point : list Q) : list Q := take 2 point.

(** The value of a key in a returned dictionary. *)
Definition field (k : string) (v : val) : option val :=
  match v with
  | VDict d => d !! k
  | _ => None
  end.

(** ** The background task of [main.py] ([process_data_background]) *)

Section Background.

(** The world outside (oracle and clock) and the database session. *)
Context {World Db : Type}.
(** [datetime.utcnow().isoformat()] *)
Variable utcnow_isoformat : World -> string.
(** [process_all_data()]: the two result lists, or an exception. *)
Variable run_process_all_data : World -> result (list val * list val) * World.
(** The four calls on [DatabaseService]; each may raise, for instance at
    its commit. *)
Variable db_save_gps_data : list val -> Db -> result Z * Db.
Variable db_save_taxi_data : list val -> Db -> result Z * Db.
Variable db_calculate_aggregate_metrics : Db -> result (gmap string val).
Variable db_save_analytics_metrics : gmap string val -> Db -> result Z * Db.

(** The global [processing_status], the session and the world. *)
Record app_state : Type := {
  processing_status : gmap string val;
  session : Db;
  world : World
}.

(** The [try] block: every [processing_status.update] is kept when a later
    step raises. *)
Definition background_try (s : app_state) : result unit * app_state :=
  let status :=
    <["last_updated" := VStr (utcnow_isoformat (world s))]>
    (<["status" := VStr "loading_data"]>
    (<["progress" := vint 0]>
    (<["is_processing" := VBool true]> (processing_status s)))) in
  match run_process_all_data (world s) with
  | (Raise e, w) =>
      (Raise e,
       {| processing_status := status; session := session s; world := w |})
  | (Ok (gps_data, taxi_data), w) =>
      let status :=
        <["last_updated" := VStr (utcnow_isoformat w)]>
        (<["status" := VStr "saving_to_database"]>
        (<["progress" := vint 50]> status)) in
      match db_save_gps_data gps_data (session s) with
      | (Raise e, db) =>
          (Raise e,
           {| processing_status := status; session := db; world := w |})
      | (Ok gps_saved, db) =>
          match db_save_taxi_data taxi_data db with
          | (Raise e, db) =>
              (Raise e,
               {| processing_status := status; session := db; world := w |})
          | (Ok taxi_saved, db) =>
              match db_calculate_aggregate_metrics db with
              | Raise e =>
                  (Raise e,
                   {| processing_status := status; session := db;
                      world := w |})
              | Ok metrics =>
                  match db_save_analytics_metrics metrics db with
                  | (Raise e, db) =>
                      (Raise e,
                       {| processing_status := status; session := db;
                          world := w |})
                  | (Ok _, db) =>
                      let status :=
                        <["taxi_saved" := vint taxi_saved]>
                        (<["gps_saved" := vint gps_saved]>
                        (<["last_updated" := VStr (utcnow_isoformat w)]>
                        (<["status" := VStr "completed"]>
                        (<["progress" := vint 100]>
                        (<["is_processing" := VBool false]> status))))) in
                      (Ok tt,
                       {| processing_status := status; session := db;
                          world := w |})
                  end
              end
          end
      end
  end.

(** [process_data_background]: the [try] block and its handler. *)
Definition process_data_background (s : app_state) : app_state :=
  let '(r, s') := background_try s in
  match r with
  | Ok _ => s'
  | Raise e =>
      {| processing_status :=
           <["last_updated" := VStr (utcnow_isoformat (world s'))]>
           (<["error" := VStr (str_exn e)]>
           (<["status" := VStr "error"]>
           (<["progress" := vint 0]>
           (<["is_processing" := VBool false]> (processing_status s')))));
         session := session s';
         world := world s' |}
  end.

End Background.

(** The keys that [process_data_background] writes into the status. *)
Definition status_keys : list string :=
  ["is_processing"; "progress"; "status"; "last_updated"; "error";
   "gps_saved"; "taxi_saved"].

(** ** Further sample data *)

Module Samples.

Import Fixtures.



(** One metric in the shape that [save_analytics_metrics] reads. *)
Definition speed_metric : gmap string val :=
  {[ "value" := vfloat 54; "type" := VStr "GPS";
     "description" := VStr "Average speed in km/h" ]}.

Definition structured_metrics : gmap string val :=
  {[ "avg_speed_kmh" := VDict speed_metric ]}.

(** The metrics that [simple_init_database.py] hands to
    [save_analytics_metrics]. *)
Definition basic_metrics : gmap string val :=
  {[ "total_gps_points" := vint 5; "total_taxi_trips" := vint 3;
     "avg_trip_duration" := vint 0; "avg_trip_distance" := vint 0 ]}.

Definition stored_point_in (area : string) : ProcessedGPSData.t :=
  {| ProcessedGPSData.original_id := "7";
     ProcessedGPSData.lat := 51.1; ProcessedGPSData.lng := 71.4;
     ProcessedGPSData.alt := 350; ProcessedGPSData.spd := 10;
     ProcessedGPSData.azm := 90;
     ProcessedGPSData.area_classification := area;
     ProcessedGPSData.activity_level := "Medium";
     ProcessedGPSData.road_type := "Street";
     ProcessedGPSData.insights := "{}" |}.

(** Stored rows with their primary keys. *)
Definition gps_rows : list (Z * ProcessedGPSData.t) :=
  [(1%Z, stored_point_in "Center"); (2%Z, stored_point_in "North");
   (3%Z, stored_point_in "Center"); (4%Z, stored_point_in "Center")].

Definition taxi_rows : list (Z * ProcessedTaxiData.t) :=
  [(1%Z, stored_trip 10 4 true); (2%Z, stored_trip 30 6 false)].

End Samples.

(** ** The analysis endpoints of [main.py] ([get_area_analysis],
    [get_trip_analysis]) *)

Section Analysis.

(** [json.loads] *)
Variable json_loads : string -> result val.

(** [for label in labels: data[label] = read(label)]: the first read that
    raises ends the loop. *)
Fixpoint analysis_loop (read : string -> result (list val))
    (labels : list string) (data : gmap string val)
    : result (gmap string val) :=
  match labels with
  | [] => Ok data
  | label :: rest =>
      records <- read label ;;
      analysis_loop read rest (<[label := VList records]> data)
  end.

(** [get_area_analysis] over the stored GPS rows. *)
Definition get_area_analysis (table : list (Z * ProcessedGPSData.t))
    : result (gmap string val) :=
  let areas := ["North"; "Center"; "South"] in
  analysis_loop
    (fun area => get_gps_data json_loads table 500 (Some area)) areas ∅.

(** [get_trip_analysis] over the stored trips. *)
Definition get_trip_analysis (table : list (Z * ProcessedTaxiData.t))
    : result (gmap string val) :=
  let categories := ["Short"; "Medium"; "Long"] in
  analysis_loop
    (fun category => get_taxi_data json_loads table 200 (Some category))
    categories ∅.

End Analysis.

(** * Properties *)

(** ** Comparisons *)

Lemma Qltb_lt x y : Py.Qltb x y = true <-> x < y.
Proof.
  unfold Qltb. rewrite negb_true_iff.
  destruct (Qle_bool y x) eqn:E.
  - apply Qle_bool_iff in E. split; [discriminate | intros H; exfalso; lra].
  - split; [intros _ | reflexivity].
    destruct (Qlt_le_dec x y) as [H | H]; [exact H |].
    apply Qle_bool_iff in H. congruence.
Qed.

Lemma Qltb_ge x y : Py.Qltb x y = false <-> y <= x.
Proof.
  unfold Qltb. rewrite negb_false_iff. apply Qle_bool_iff.
Qed.

Lemma Qgtb_gt x y : Py.Qgtb x y = true <-> y < x.
Proof. apply Qltb_lt. Qed.

Lemma Qgtb_le x y : Py.Qgtb x y = false <-> x <= y.
Proof. apply Qltb_ge. Qed.

(** ** Classifier rules: properties *)

Ltac qcase :=
  repeat match goal with
  | |- context [Qgtb ?a ?b] =>
      let E := fresh "E" in
      destruct (Qgtb a b) eqn:E;
      [apply Qgtb_gt in E | apply Qgtb_le in E]
  | |- context [Qltb ?a ?b] =>
      let E := fresh "E" in
      destruct (Qltb a b) eqn:E;
      [apply Qltb_lt in E | apply Qltb_ge in E]
  end.

(** C8: [area] sends latitudes below 51.08 to South, latitudes in
    [51.08, 51.12] to Center and latitudes above 51.12 to North; both
    boundary values map to Center. *)
Theorem classify_area_partition (lat : Q) :
  (lat < 51.08 -> _classify_area lat = "South") /\
  (51.08 <= lat <= 51.12 -> _classify_area lat = "Center") /\
  (51.12 < lat -> _classify_area lat = "North") /\
  _classify_area 51.08 = "Center" /\
  _classify_area 51.12 = "Center".
Proof.
  repeat split; try reflexivity; intros H; unfold _classify_area; qcase;
    first [reflexivity | exfalso; lra].
Qed.

Lemma classify_area_partition_witness :
  51.08 <= 51.1 <= 51.12 /\ _classify_area 51.1 = "Center".
Proof.
  assert (H : 51.08 <= 51.1 <= 51.12) by (unfold Qle; simpl; lia).
  split; [exact H |].
  exact (proj1 (proj2 (classify_area_partition 51.1)) H).
Defined.

(** The remaining two rules are total step functions as well. *)
Lemma classify_activity_cases (speed : Q) :
  (10 < speed -> _classify_activity speed = "High") /\
  (3 < speed <= 10 -> _classify_activity speed = "Medium") /\
  (speed <= 3 -> _classify_activity speed = "Low").
Proof.
  repeat split; intros H; unfold _classify_activity; qcase;
    first [reflexivity | exfalso; lra].
Qed.

Lemma classify_trip_duration_cases (duration : Q) :
  (duration < 10 -> _classify_trip_duration duration = "Short") /\
  (10 <= duration < 30 -> _classify_trip_duration duration = "Medium") /\
  (30 <= duration -> _classify_trip_duration duration = "Long").
Proof.
  repeat split; intros H; unfold _classify_trip_duration; qcase;
    first [reflexivity | exfalso; lra].
Qed.

(** C7: [price_tier] is Unknown for a distance of zero or less; otherwise
    the rate fare/distance selects Low below 2, Medium in [2,5), High in
    [5,10) and Premium from 10 on.  In particular (10, 0) gives Unknown and
    (4, 2) gives Medium. *)
Theorem classify_price_tiers (fare distance : Q) :
  (distance <= 0 -> _classify_price fare distance = "Unknown") /\
  (0 < distance -> fare / distance < 2 ->
     _classify_price fare distance = "Low") /\
  (0 < distance -> 2 <= fare / distance < 5 ->
     _classify_price fare distance = "Medium") /\
  (0 < distance -> 5 <= fare / distance < 10 ->
     _classify_price fare distance = "High") /\
  (0 < distance -> 10 <= fare / distance ->
     _classify_price fare distance = "Premium") /\
  _classify_price 10 0 = "Unknown" /\
  _classify_price 4 2 = "Medium".
Proof.
  repeat split; try reflexivity; intros; unfold _classify_price; cbv zeta;
    qcase; first [reflexivity | exfalso; lra].
Qed.

Lemma classify_price_tiers_witness :
  0 < 3 /\ 5 <= 21 / 3 < 10 /\ _classify_price 21 3 = "High".
Proof.
  assert (Hd : 0 < 3) by (unfold Qlt; simpl; lia).
  assert (Hr : 5 <= 21 / 3 < 10) by (unfold Qle, Qlt; simpl; lia).
  split; [exact Hd |]. split; [exact Hr |].
  exact (proj1 (proj2 (proj2 (proj2 (classify_price_tiers 21 3)))) Hd Hr).
Defined.

(** The efficiency score stays in [0, 1] on trips of at least 15 minutes
    with a non-negative speed: there both clamps are the active bounds. *)
Lemma calculate_efficiency_bounded (speed duration : Q) :
  0 <= speed -> 15 <= duration ->
  0 <= _calculate_efficiency speed duration <= 1.
Proof.
  intros Hs Hd. unfold _calculate_efficiency. cbv zeta.
  assert (H1 : 0 <= Qmin (speed / 60) 1.0 <= 1).
  { split.
    - apply Q.min_glb; [| lra].
      apply Qle_shift_div_l; lra.
    - pose proof (Q.le_min_r (speed / 60) 1.0). lra. }
  assert (H2 : 0 <= Qmax 0 (1 - (duration - 15) / 30) <= 1).
  { split.
    - apply Q.le_max_l.
    - apply Q.max_lub; [lra |].
      assert (0 <= (duration - 15) / 30) by (apply Qle_shift_div_l; lra).
      lra. }
  split.
  - apply Qle_shift_div_l; lra.
  - apply Qle_shift_div_r; lra.
Qed.

(** C2: [efficiency] is the mean of the capped speed score and the floored
    duration score; the score leaves [0, 1] on short trips: 60 km/h over
    5 minutes scores 7/6. *)
Theorem calculate_efficiency_overshoots :
  (forall speed duration : Q,
     _calculate_efficiency speed duration ==
     (Qmin (speed / 60) 1.0 + Qmax 0 (1 - (duration - 15) / 30)) / 2) /\
  _calculate_efficiency 60 5 == 7 # 6 /\
  ~ (0 <= _calculate_efficiency 60 5 <= 1).
Proof.
  split; [| split].
  - intros speed duration. reflexivity.
  - vm_compute. reflexivity.
  - intros [_ H]. vm_compute in H. apply H. reflexivity.
Qed.


(** ** Enrichment engine: properties *)

Section EngineProperties.

Context {World : Type}.
Variable llm : prompt -> World -> result string * World.
Variable json_loads : string -> result val.
Variable now_isoformat : World -> string.
Variable format_2f : Q -> string.

Lemma gps_except_fallback (idx : Z) (row : GpsRow) (e : exn) :
  gps_fallback row (gps_except idx row e).
Proof.
  eexists _, _. split; [reflexivity |].
  repeat split; by simplify_map_eq.
Qed.

Lemma taxi_except_fallback (idx : Z) (row : TaxiRow) (e : exn) :
  taxi_fallback row (taxi_except idx row e).
Proof.
  eexists _, _. split; [reflexivity |].
  repeat split; by simplify_map_eq.
Qed.

(** Item assignment fails on everything but a dictionary, with a message
    that depends on the value only. *)
Lemma setitem_non_dict (v : val) :
  (forall d, v <> VDict d) ->
  exists msg, forall k x, setitem v k x = Raise (TypeError msg).
Proof.
  intros Hv. destruct v as [| b | [z | q] | s | l | d];
    try (eexists; intros; reflexivity).
  exfalso. by apply (Hv d).
Qed.

(** The loops append one record per row, in order, whatever the oracle
    does. *)
Lemma gps_loop_records (rows : DataFrame GpsRow) :
  forall (acc : list val) (w : World),
  exists outs,
    (gps_loop llm json_loads now_isoformat format_2f rows acc w).1
      = acc ++ outs /\
    Forall2 (fun ir out => exists w0,
               out = (gps_record llm json_loads now_isoformat format_2f
                        ir.1 ir.2 w0).1) rows outs.
Proof.
  induction rows as [| [idx row] rest IH]; intros acc w; simpl.
  - exists []. split; [by rewrite app_nil_r | constructor].
  - destruct (gps_record _ _ _ _ idx row w) as [rec w'] eqn:E.
    destruct (IH (acc ++ [rec]) w') as (outs & Hout & Hall).
    exists (rec :: outs). split.
    + rewrite Hout. by rewrite <- app_assoc.
    + constructor; [| exact Hall]. exists w. simpl. by rewrite E.
Qed.

Lemma taxi_loop_records (rows : DataFrame TaxiRow) :
  forall (acc : list val) (w : World),
  exists outs,
    (taxi_loop llm json_loads now_isoformat rows acc w).1 = acc ++ outs /\
    Forall2 (fun ir out => exists w0,
               out = (taxi_record llm json_loads now_isoformat
                        ir.1 ir.2 w0).1) rows outs.
Proof.
  induction rows as [| [idx row] rest IH]; intros acc w; simpl.
  - exists []. split; [by rewrite app_nil_r | constructor].
  - destruct (taxi_record _ _ _ idx row w) as [rec w'] eqn:E.
    destruct (IH (acc ++ [rec]) w') as (outs & Hout & Hall).
    exists (rec :: outs). split.
    + rewrite Hout. by rewrite <- app_assoc.
    + constructor; [| exact Hall]. exists w. simpl. by rewrite E.
Qed.

(** Every input record yields exactly one enriched record. *)
Lemma process_gps_batch_length (gps_data : DataFrame GpsRow) (w : World) :
  length (process_gps_batch llm json_loads now_isoformat format_2f
            gps_data w).1 = length gps_data.
Proof.
  unfold process_gps_batch.
  destruct (gps_loop_records gps_data [] w) as (outs & -> & Hall).
  simpl. symmetry. by eapply Forall2_length.
Qed.

Lemma process_taxi_batch_length (taxi_data : DataFrame TaxiRow) (w : World) :
  length (process_taxi_batch llm json_loads now_isoformat taxi_data w).1
    = length taxi_data.
Proof.
  unfold process_taxi_batch.
  destruct (taxi_loop_records taxi_data [] w) as (outs & -> & Hall).
  simpl. symmetry. by eapply Forall2_length.
Qed.

(** C1: when the oracle raises on every call, a batch of N raw records still
    yields N enriched records, one per input and in input order; each
    carries the labels of the classifier rules (road type Unknown for GPS)
    and an error description as insight.  The batch functions are total:
    nothing is raised out of them. *)
Theorem failing_oracle_falls_back
    (Hfail : forall p w, exists e w', llm p w = (Raise e, w'))
    (gps_data : DataFrame GpsRow) (taxi_data : DataFrame TaxiRow)
    (w : World) :
  let gps_results :=
    (process_gps_batch llm json_loads now_isoformat format_2f gps_data w).1 in
  let taxi_results :=
    (process_taxi_batch llm json_loads now_isoformat taxi_data w).1 in
  length gps_results = length gps_data /\
  Forall2 gps_fallback (map snd gps_data) gps_results /\
  length taxi_results = length taxi_data /\
  Forall2 taxi_fallback (map snd taxi_data) taxi_results.
Proof.
  cbv zeta. split; [apply process_gps_batch_length |].
  split; [| split; [apply process_taxi_batch_length |]].
  - unfold process_gps_batch.
    destruct (gps_loop_records gps_data [] w) as (outs & -> & Hall).
    simpl. apply Forall2_fmap_l.
    eapply Forall2_impl; [exact Hall |].
    intros [idx row] out [w0 ->]. simpl.
    unfold gps_record, gps_try, chain_run, mbind.
    destruct (Hfail (gps_prompt format_2f idx row) w0) as (e & w' & ->).
    apply gps_except_fallback.
  - unfold process_taxi_batch.
    destruct (taxi_loop_records taxi_data [] w) as (outs & -> & Hall).
    simpl. apply Forall2_fmap_l.
    eapply Forall2_impl; [exact Hall |].
    intros [idx row] out [w0 ->]. simpl.
    unfold taxi_record, taxi_try, chain_run, mbind.
    destruct (Hfail (taxi_prompt idx row) w0) as (e & w' & ->).
    apply taxi_except_fallback.
Qed.

(** C5: a response text that [json.loads] rejects makes the parser return,
    without raising, the dictionary with the raw text under [insights], the
    confidence 0.7 and a timestamp; the record emitted for that response
    carries the raw text in its insight field. *)
Theorem unparsable_reply_kept_as_text (text msg : string)
    (Hbad : json_loads text = Raise (JSONDecodeError msg)) :
  (forall w,
     parse json_loads now_isoformat text w =
     (Ok (VDict {[ "insights" := VStr text;
                   "confidence" := vfloat 0.7;
                   "processed_at" := VStr (now_isoformat w) ]}), w)) /\
  (forall idx row w w',
     llm (gps_prompt format_2f idx row) w = (Ok text, w') ->
     exists d,
       (process_gps_batch llm json_loads now_isoformat format_2f
          [(idx, row)] w).1 = [VDict d] /\
       d !! "insights" = Some (VStr text) /\
       d !! "confidence" = Some (vfloat 0.7) /\
       d !! "processed_at" = Some (VStr (now_isoformat w'))) /\
  (forall idx row w w',
     llm (taxi_prompt idx row) w = (Ok text, w') ->
     exists d,
       (process_taxi_batch llm json_loads now_isoformat
          [(idx, row)] w).1 = [VDict d] /\
       d !! "insights" = Some (VStr text) /\
       d !! "confidence" = Some (vfloat 0.7) /\
       d !! "processed_at" = Some (VStr (now_isoformat w'))).
Proof.
  assert (Hparse : forall w,
     parse json_loads now_isoformat text w =
     (Ok (VDict {[ "insights" := VStr text;
                   "confidence" := vfloat 0.7;
                   "processed_at" := VStr (now_isoformat w) ]}), w)).
  { intros w. unfold parse. by rewrite Hbad. }
  split; [exact Hparse |]. split.
  - intros idx row w w' Hllm.
    unfold process_gps_batch, gps_loop, gps_record, gps_try, chain_run, mbind.
    rewrite Hllm, Hparse. simpl.
    eexists. split; [reflexivity |].
    repeat split; by simplify_map_eq.
  - intros idx row w w' Hllm.
    unfold process_taxi_batch, taxi_loop, taxi_record, taxi_try, chain_run,
      mbind.
    rewrite Hllm, Hparse. simpl.
    eexists. split; [reflexivity |].
    repeat split; by simplify_map_eq.
Qed.

(** C9: a response that is valid JSON but not an object makes the first
    item assignment of the merge raise a [TypeError]; the handler catches it
    and the record emitted is the rule-based fallback with an error
    description, without the [confidence] and [processed_at] keys of a
    wrapped text response. *)
Theorem non_object_json_falls_back (text : string) (v : val)
    (Hjson : json_loads text = Ok v)
    (Hnot : forall d, v <> VDict d) :
  exists msg,
    (forall k x, setitem v k x = Raise (TypeError msg)) /\
    (forall idx row w w',
       llm (gps_prompt format_2f idx row) w = (Ok text, w') ->
       process_gps_batch llm json_loads now_isoformat format_2f
         [(idx, row)] w = ([gps_except idx row (TypeError msg)], w') /\
       gps_fallback row (gps_except idx row (TypeError msg)) /\
       Py.get (gps_except idx row (TypeError msg)) "insights" VNone =
         Ok (VStr ("Error processing: " ++ msg)) /\
       Py.get (gps_except idx row (TypeError msg)) "confidence" VNone =
         Ok VNone) /\
    (forall idx row w w',
       llm (taxi_prompt idx row) w = (Ok text, w') ->
       process_taxi_batch llm json_loads now_isoformat
         [(idx, row)] w = ([taxi_except idx row (TypeError msg)], w') /\
       taxi_fallback row (taxi_except idx row (TypeError msg)) /\
       Py.get (taxi_except idx row (TypeError msg)) "insights" VNone =
         Ok (VStr ("Error processing: " ++ msg)) /\
       Py.get (taxi_except idx row (TypeError msg)) "confidence" VNone =
         Ok VNone).
Proof.
  destruct (setitem_non_dict v Hnot) as [msg Hset].
  assert (Hparse : forall w, parse json_loads now_isoformat text w = (Ok v, w)).
  { intros w. unfold parse. by rewrite Hjson. }
  exists msg. split; [exact Hset |]. split.
  - intros idx row w w' Hllm. split; [| split; [| split]].
    + unfold process_gps_batch, gps_loop, gps_record, gps_try, chain_run,
        mbind, lift.
      rewrite Hllm, Hparse. simpl. by rewrite Hset.
    + apply gps_except_fallback.
    + unfold gps_except, Py.get. by simplify_map_eq.
    + unfold gps_except, Py.get. by simplify_map_eq.
  - intros idx row w w' Hllm. split; [| split; [| split]].
    + unfold process_taxi_batch, taxi_loop, taxi_record, taxi_try, chain_run,
        mbind, lift.
      rewrite Hllm, Hparse. simpl. by rewrite Hset.
    + apply taxi_except_fallback.
    + unfold taxi_except, Py.get. by simplify_map_eq.
    + unfold taxi_except, Py.get. by simplify_map_eq.
Qed.

End EngineProperties.

(** ** Batch driver: properties *)

Local Close Scope Q_scope.

(** A slice that starts inside the table is a [take] of a [drop]. *)
Lemma iloc_take_drop {A : Type} (df : list A) (i b : Z) :
  (0 <= i)%Z -> (0 < b)%Z ->
  iloc df i (i + b) = take (Z.to_nat b) (drop (Z.to_nat i) df).
Proof.
  intros Hi Hb. unfold iloc, slice_bound.
  destruct (Z.ltb_spec i 0) as [? | _]; [lia |].
  destruct (Z.ltb_spec (i + b) 0) as [? | _]; [lia |].
  set (n := Z.of_nat (length df)).
  destruct (Z.le_gt_cases i n) as [Hin | Hin].
  - rewrite (Z.min_l i n) by lia.
    destruct (Z.le_gt_cases (i + b) n) as [Hb' | Hb'].
    + rewrite (Z.min_l (i + b) n) by lia. f_equal. lia.
    + rewrite (Z.min_r (i + b) n) by lia.
      rewrite !take_ge; [reflexivity | |]; rewrite length_drop; lia.
  - rewrite (Z.min_r i n), (Z.min_r (i + b) n) by lia.
    rewrite (drop_ge df (Z.to_nat i)) by lia.
    rewrite (drop_ge df (Z.to_nat n)) by lia.
    by rewrite !take_nil.
Qed.

(** The slices of width [b] at the offsets 0, b, 2b, ... *)
Lemma chunks_concat {A : Type} (b : nat) (m : nat) :
  forall l : list A,
  (length l <= m * b)%nat ->
  concat (map (fun k => take b (drop (k * b)%nat l)) (seq 0 m)) = l.
Proof.
  induction m as [| m IH]; intros l Hl.
  - simpl in *. destruct l; [reflexivity | simpl in Hl; lia].
  - rewrite <- cons_seq, <- fmap_S_seq. simpl.
    rewrite drop_0. rewrite <- list_fmap_compose.
    transitivity (take b l ++ drop b l); [| apply take_drop].
    f_equal.
    etransitivity; [| apply (IH (drop b l)); rewrite length_drop; lia].
    f_equal. apply map_ext. intros k. simpl.
    rewrite drop_drop. f_equal.
Qed.

(** Number of batches: the length of [range(0, n, size)]. *)
Lemma batch_count_bounds (n size : Z) :
  (0 <= n)%Z -> (0 < size)%Z ->
  let m := ((n + size - 1) / size)%Z in
  (0 <= m /\ n <= m * size /\ (m - 1) * size < n \/ n = 0 /\ m = 0)%Z.
Proof.
  intros Hn Hs m.
  pose proof (Z.mul_div_le (n + size - 1) size Hs) as H1.
  pose proof (Z.mul_succ_div_gt (n + size - 1) size Hs) as H2.
  fold m in H1, H2.
  destruct (Z.eq_dec n 0%Z) as [-> | Hn0].
  - right. split; [reflexivity |]. subst m.
    apply Z.div_small. lia.
  - left. nia.
Qed.

Lemma chunks_partition {Row : Type} (size : Z) (df : DataFrame Row) :
  (0 < size)%Z ->
  let m := Z.to_nat ((Z.of_nat (length df) + size - 1) / size) in
  batch_partition size df
    (map (fun k => take (Z.to_nat size) (drop (k * Z.to_nat size)%nat df))
       (seq 0 m)).
Proof.
  intros Hs m.
  pose proof (batch_count_bounds (Z.of_nat (length df)) size
                ltac:(lia) Hs) as Hm.
  cbv zeta in Hm. fold m in Hm.
  split.
  - apply chunks_concat. nia.
  - intros k batch Hk.
    rewrite list_lookup_fmap in Hk.
    destruct (seq 0 m !! k) as [k' |] eqn:Ek; [| discriminate].
    apply lookup_seq in Ek as [-> Hlt]. simpl in Hk.
    injection Hk as <-.
    rewrite length_map, length_seq, length_take, length_drop.
    split; [split |]; intros; nia.
Qed.

(** The offsets that the driver's loop visits. *)
Lemma range_offsets (n size : Z) :
  (0 < size)%Z ->
  range 0 n size =
  Ok (map (fun k : nat => (Z.of_nat k * size)%Z)
        (seq 0 (Z.to_nat ((n + size - 1) / size)))).
Proof.
  intros Hs. unfold range.
  destruct (Z.eqb_spec size 0) as [? | _]; [lia |].
  destruct (Z.ltb_spec 0 size) as [_ | ?]; [| lia].
  rewrite Z.sub_0_r. reflexivity.
Qed.

Lemma progress_signals_app (kind : string) (l1 l2 : list event) :
  progress_signals kind (l1 ++ l2)
  = progress_signals kind l1 ++ progress_signals kind l2.
Proof. unfold progress_signals. apply flat_map_app. Qed.

Lemma progress_signals_same (kind : string) (l : list (Z * Z)) :
  progress_signals kind (map (fun ct => Progress kind ct.1 ct.2) l) = l.
Proof.
  induction l as [| [c t] l IH]; [reflexivity |].
  simpl. rewrite String.eqb_refl. simpl. by f_equal.
Qed.

Lemma progress_signals_other (kind kind' : string) (l : list (Z * Z)) :
  kind' <> kind ->
  progress_signals kind (map (fun ct => Progress kind' ct.1 ct.2) l) = [].
Proof.
  intros Hne. induction l as [| [c t] l IH]; [reflexivity |].
  simpl. by apply String.eqb_neq in Hne as ->.
Qed.

Section DriverProperties.

Context {World Row : Type}.
Variable process_batch : DataFrame Row -> World -> list val * World.
Variable BATCH_SIZE : Z.
Hypothesis BATCH_SIZE_pos : (0 < BATCH_SIZE)%Z.

(** The loop processes the slices at its offsets in sequence and signals
    progress once per slice. *)
Lemma batch_loop_run (kind : string) (df : DataFrame Row)
    (offsets : list Z) :
  Forall (fun i => 0 <= i)%Z offsets ->
  forall (results : list val) (log : list event) (w : World),
  batch_loop BATCH_SIZE process_batch kind df offsets results log w =
  let '(results', w') :=
    run_batches process_batch
      (map (fun i => take (Z.to_nat BATCH_SIZE) (drop (Z.to_nat i) df))
         offsets) results w in
  (results',
   log ++ map (fun i => Progress kind (i / BATCH_SIZE + 1)
                          ((Z.of_nat (length df) - 1) / BATCH_SIZE + 1))%Z
            offsets,
   w').
Proof.
  induction 1 as [| i offsets Hi _ IH]; intros results log w; simpl.
  - by rewrite app_nil_r.
  - rewrite iloc_take_drop by assumption.
    destruct (process_batch _ w) as [batch_results w'].
    rewrite IH.
    destruct (run_batches _ _ _ w') as [results' w''].
    by rewrite <- app_assoc.
Qed.

(** One pass of the driver over a table. *)
Lemma batch_loop_partition (kind : string) (df : DataFrame Row)
    (log : list event) (w : World) :
  exists (batches : list (DataFrame Row)) (offsets : list Z),
    range 0 (Z.of_nat (length df)) BATCH_SIZE = Ok offsets /\
    batch_partition BATCH_SIZE df batches /\
    length batches =
      Z.to_nat ((Z.of_nat (length df) + BATCH_SIZE - 1) / BATCH_SIZE) /\
    map length batches =
      map (fun k => length (take (Z.to_nat BATCH_SIZE)
                              (drop (k * Z.to_nat BATCH_SIZE)%nat df)))
        (seq 0 (length batches)) /\
    batch_loop BATCH_SIZE process_batch kind df offsets [] log w =
    ((run_batches process_batch batches [] w).1,
     log ++ map (fun ct => Progress kind ct.1 ct.2)
              (counting_up (length batches)),
     (run_batches process_batch batches [] w).2).
Proof.
  set (n := Z.of_nat (length df)).
  set (m := Z.to_nat ((n + BATCH_SIZE - 1) / BATCH_SIZE)).
  exists (map (fun k => take (Z.to_nat BATCH_SIZE)
                          (drop (k * Z.to_nat BATCH_SIZE)%nat df)) (seq 0 m)).
  exists (map (fun k : nat => (Z.of_nat k * BATCH_SIZE)%Z) (seq 0 m)).
  split; [by apply range_offsets |].
  split; [by apply chunks_partition |].
  rewrite length_map, length_seq.
  split; [reflexivity |].
  split; [by rewrite map_map |].
  rewrite batch_loop_run.
  2:{ apply Forall_fmap, Forall_forall. intros k _. simpl. lia. }
  assert (Hb : map (fun i => take (Z.to_nat BATCH_SIZE) (drop (Z.to_nat i) df))
                 (map (fun k : nat => (Z.of_nat k * BATCH_SIZE)%Z) (seq 0 m))
               = map (fun k => take (Z.to_nat BATCH_SIZE)
                                 (drop (k * Z.to_nat BATCH_SIZE)%nat df))
                   (seq 0 m)).
  { rewrite map_map. apply map_ext. intros k. simpl. do 2 f_equal. lia. }
  rewrite Hb.
  destruct (run_batches _ _ _ w) as [results' w']. simpl.
  do 2 f_equal. f_equal. unfold counting_up.
  rewrite !map_map. apply map_ext. intros k. simpl.
  f_equal.
  - rewrite Z.div_mul by lia. reflexivity.
  - fold n. replace (n - 1)%Z with (n + BATCH_SIZE - 1 + (-1) * BATCH_SIZE)%Z
      by lia.
    rewrite Z.div_add by lia.
    pose proof (batch_count_bounds n BATCH_SIZE ltac:(lia) BATCH_SIZE_pos)
      as H.
    cbv zeta in H. unfold m. lia.
Qed.

End DriverProperties.

Section DriverTheorem.

Context {World : Type}.
Variable llm : prompt -> World -> result string * World.
Variable json_loads : string -> result val.
Variable now_isoformat : World -> string.
Variable format_2f : Q -> string.
Variable BATCH_SIZE : Z.

(** C6: for a positive batch size the driver cuts each table into
    contiguous, non-overlapping slices in original order whose concatenation
    is the table, only the last slice possibly shorter than the batch size;
    it processes the slices in sequence and signals progress once per slice
    (1/T, 2/T, ..., T/T).  With batch size 1000 and 2500 records the slices
    have sizes 1000, 1000, 500 and progress is signalled 3 times. *)
Theorem batch_driver_partitions (Hpos : (0 < BATCH_SIZE)%Z)
    (gps_df : DataFrame GpsRow) (taxi_df : DataFrame TaxiRow) (w : World) :
  exists (gps_batches : list (DataFrame GpsRow))
         (taxi_batches : list (DataFrame TaxiRow))
         (gps_results taxi_results : list val) (log : list event)
         (w1 w2 : World),
    process_all_data llm json_loads now_isoformat format_2f BATCH_SIZE
      gps_df taxi_df w = Ok (gps_results, taxi_results, log, w2) /\
    batch_partition BATCH_SIZE gps_df gps_batches /\
    batch_partition BATCH_SIZE taxi_df taxi_batches /\
    run_batches (process_gps_batch llm json_loads now_isoformat format_2f)
      gps_batches [] w = (gps_results, w1) /\
    run_batches (process_taxi_batch llm json_loads now_isoformat)
      taxi_batches [] w1 = (taxi_results, w2) /\
    progress_signals "GPS" log = counting_up (length gps_batches) /\
    progress_signals "taxi" log = counting_up (length taxi_batches) /\
    (BATCH_SIZE = config.BATCH_SIZE -> Z.of_nat (length gps_df) = 2500%Z ->
     map (fun batch => Z.of_nat (length batch)) gps_batches
       = [1000; 1000; 500]%Z /\
     progress_signals "GPS" log = [(1, 3); (2, 3); (3, 3)]%Z).
Proof.
  set (log0 := [LogInfo "Loading GPS data..."; LogInfo "Loading taxi data...";
                LogInfo "Processing GPS data..."]).
  destruct (batch_loop_partition
              (process_gps_batch llm json_loads now_isoformat format_2f)
              BATCH_SIZE Hpos "GPS" gps_df log0 w)
    as (gbs & goffs & Hgr & Hgp & Hgl & Hgm & Hgloop).
  destruct (run_batches _ gbs [] w) as [gps_results w1] eqn:Hgrun.
  cbn [fst snd] in Hgloop.
  set (log1 := (log0 ++ map (fun ct => Progress "GPS" ct.1 ct.2)
                          (counting_up (length gbs)))
               ++ [LogInfo "Processing taxi data..."]).
  destruct (batch_loop_partition
              (process_taxi_batch llm json_loads now_isoformat)
              BATCH_SIZE Hpos "taxi" taxi_df log1 w1)
    as (tbs & toffs & Htr & Htp & Htl & Htm & Htloop).
  destruct (run_batches _ tbs [] w1) as [taxi_results w2] eqn:Htrun.
  cbn [fst snd] in Htloop.
  assert (Hsig_gps :
    progress_signals "GPS"
      (log1 ++ map (fun ct => Progress "taxi" ct.1 ct.2)
                 (counting_up (length tbs)))
    = counting_up (length gbs)).
  { unfold log1. rewrite !progress_signals_app.
    rewrite progress_signals_same.
    rewrite progress_signals_other by discriminate.
    simpl. by rewrite !app_nil_r. }
  exists gbs, tbs, gps_results, taxi_results.
  eexists _, w1, w2.
  split; [| split; [exact Hgp | split; [exact Htp |
           split; [exact Hgrun | split; [exact Htrun |
           split; [exact Hsig_gps | split]]]]]].
  - unfold process_all_data. rewrite Hgr. cbn [bind]. fold log0.
    rewrite Hgloop. fold log1. rewrite Htr. cbn [bind].
    rewrite Htloop. reflexivity.
  - unfold log1. rewrite !progress_signals_app.
    rewrite progress_signals_same.
    rewrite progress_signals_other by discriminate.
    reflexivity.
  - intros HB Hlen. unfold config.BATCH_SIZE in HB.
    assert (Hgl3 : length gbs = 3%nat).
    { rewrite Hgl, Hlen, HB. reflexivity. }
    split.
    + rewrite <- (map_map length Z.of_nat), Hgm, Hgl3, HB.
      change (seq 0 3) with [0; 1; 2]%nat. cbn [map].
      rewrite !length_take, !length_drop.
      repeat f_equal; lia.
    + rewrite Hsig_gps, Hgl3. reflexivity.
Qed.

End DriverTheorem.

(** ** Aggregator: properties *)

Local Open Scope Q_scope.

Lemma num_val_add (a b : num) : num_val (Py.add a b) == num_val a + num_val b.
Proof.
  destruct a as [x | p], b as [y | q]; simpl; try reflexivity.
  by rewrite inject_Z_plus.
Qed.

Lemma num_val_mul (a b : num) : num_val (Py.mul a b) == num_val a * num_val b.
Proof.
  destruct a as [x | p], b as [y | q]; simpl; reflexivity.
Qed.

Lemma num_val_sum (l : list Q) : num_val (Py.sum (map NFloat l)) == Qsum l.
Proof.
  unfold Py.sum.
  assert (H : forall a, num_val (fold_left Py.add (map NFloat l) a)
                        == num_val a + Qsum l).
  { induction l as [| q l IH]; intros a; cbn [map fold_left Qsum fold_right].
    - lra.
    - rewrite IH, num_val_add. cbn [num_val]. fold (Qsum l). lra. }
  rewrite H. cbn [num_val]. change (inject_Z 0) with 0. lra.
Qed.

Lemma truediv_ok (a b : num) :
  ~ num_val b == 0 ->
  truediv a b = Ok (NFloat (num_val a / num_val b)).
Proof.
  intros Hb. unfold truediv.
  destruct (Qeq_bool (num_val b) 0) eqn:E; [| reflexivity].
  by apply Qeq_bool_eq in E.
Qed.

Lemma inject_Z_pos (z : Z) : (0 < z)%Z -> 0 < inject_Z z.
Proof. intros Hz. unfold Qlt, inject_Z. simpl. lia. Qed.

(** The guarded average never divides by zero and is the mean. *)
Lemma average_mean (rows : list Q) :
  exists n : num, average rows = Ok n /\ num_val n == mean rows.
Proof.
  destruct rows as [| q rows].
  - exists (NInt 0). split; reflexivity.
  - unfold average. rewrite truediv_ok.
    + eexists. split; [reflexivity |]. cbn [num_val mean].
      rewrite num_val_sum. reflexivity.
    + cbn [num_val].
      pose proof (inject_Z_pos (Z.of_nat (length (q :: rows)))
                    ltac:(simpl; lia)).
      lra.
Qed.

Lemma filter_spd_positive (rows : list ProcessedGPSData.t) :
  map ProcessedGPSData.spd
    (List.filter (fun r => Qgtb (ProcessedGPSData.spd r) 0) rows)
  = List.filter (fun s => Qltb 0 s) (map ProcessedGPSData.spd rows).
Proof.
  induction rows as [| r rows IH]; [reflexivity |].
  simpl. unfold Qgtb at 1.
  destruct (Qltb 0 (ProcessedGPSData.spd r)); simpl; by rewrite IH.
Qed.

(** The aggregator always returns: every division is guarded by the test
    that makes its divisor non-zero. *)
Lemma calculate_aggregate_metrics_returns (db : Session) :
  let gps_count := Z.of_nat (length (processed_gps_data db)) in
  let taxi_count := Z.of_nat (length (processed_taxi_data db)) in
  let surge_trips :=
    Z.of_nat (length (List.filter ProcessedTaxiData.surge_applied
                        (processed_taxi_data db))) in
  exists avg_speed avg_fare avg_duration avg_distance : num,
    num_val avg_speed == mean (positive_speeds db) /\
    num_val avg_fare ==
      mean (map ProcessedTaxiData.total_fare_new (processed_taxi_data db)) /\
    num_val avg_duration ==
      mean (map ProcessedTaxiData.trip_duration_min (processed_taxi_data db)) /\
    num_val avg_distance ==
      mean (map ProcessedTaxiData.distance_traveled_km
              (processed_taxi_data db)) /\
    calculate_aggregate_metrics db =
    Ok {[ "gps_points_count" := VNum (NInt gps_count);
          "avg_speed_mps" := VNum avg_speed;
          "avg_speed_kmh" := VNum (mul avg_speed (NFloat 3.6));
          "taxi_trips_count" := VNum (NInt taxi_count);
          "avg_fare_usd" := VNum avg_fare;
          "avg_fare_tenge" := VNum (mul avg_fare (NInt 541));
          "avg_trip_duration_min" := VNum avg_duration;
          "avg_distance_km" := VNum avg_distance;
          "surge_percentage" :=
            VNum (if (0 <? taxi_count)%Z
                  then mul (NFloat (inject_Z surge_trips / inject_Z taxi_count))
                         (NInt 100)
                  else NInt 0);
          "price_per_km_tenge" :=
            VNum (if Qgtb (num_val avg_distance) 0
                  then mul (NFloat (num_val avg_fare / num_val avg_distance))
                         (NInt 541)
                  else NInt 0) ]}.
Proof.
  intros gps_count taxi_count surge_trips.
  unfold calculate_aggregate_metrics.
  rewrite filter_spd_positive. fold (positive_speeds db).
  destruct (average_mean (positive_speeds db)) as (avg_speed & -> & Hs).
  destruct (average_mean (map ProcessedTaxiData.total_fare_new
                            (processed_taxi_data db)))
    as (avg_fare & -> & Hf).
  destruct (average_mean (map ProcessedTaxiData.trip_duration_min
                            (processed_taxi_data db)))
    as (avg_duration & -> & Hd).
  destruct (average_mean (map ProcessedTaxiData.distance_traveled_km
                            (processed_taxi_data db)))
    as (avg_distance & -> & Hk).
  exists avg_speed, avg_fare, avg_duration, avg_distance.
  do 4 (split; [assumption |]).
  cbn [bind]. fold taxi_count surge_trips gps_count.
  destruct (Z.ltb_spec 0 taxi_count) as [Hc | Hc].
  - rewrite (truediv_ok (NInt surge_trips) (NInt taxi_count)).
    2:{ cbn [num_val]. pose proof (inject_Z_pos taxi_count Hc). lra. }
    cbn [bind num_val].
    destruct (Qgtb (num_val avg_distance) 0) eqn:Eg.
    + apply Qgtb_gt in Eg.
      rewrite (truediv_ok avg_fare avg_distance) by lra.
      reflexivity.
    + reflexivity.
  - cbn [bind].
    destruct (Qgtb (num_val avg_distance) 0) eqn:Eg.
    + apply Qgtb_gt in Eg.
      rewrite (truediv_ok avg_fare avg_distance) by lra.
      reflexivity.
    + reflexivity.
Qed.

(** C3: the aggregator returns for every persisted corpus, with
    [avg_speed_mps] the mean speed over the GPS points with speed > 0 (0 if
    there is none), [avg_speed_kmh] = [avg_speed_mps] * 3.6,
    [avg_fare_tenge] = [avg_fare_usd] * 541, and [price_per_km_tenge] =
    [avg_fare_tenge] / [avg_distance_km] when [avg_distance_km] > 0 and 0
    otherwise.  With zero trips [avg_fare_usd], [surge_percentage] and
    [price_per_km_tenge] are 0.  No division by zero is raised. *)
Theorem aggregate_metrics_formulas (db : Session) :
  exists (m : gmap string val)
         (avg_speed_mps avg_speed_kmh avg_fare_usd avg_fare_tenge
          avg_distance_km surge_percentage price_per_km_tenge : Q),
    calculate_aggregate_metrics db = Ok m /\
    metric m "avg_speed_mps" avg_speed_mps /\
    metric m "avg_speed_kmh" avg_speed_kmh /\
    metric m "avg_fare_usd" avg_fare_usd /\
    metric m "avg_fare_tenge" avg_fare_tenge /\
    metric m "avg_distance_km" avg_distance_km /\
    metric m "surge_percentage" surge_percentage /\
    metric m "price_per_km_tenge" price_per_km_tenge /\
    avg_speed_mps == mean (positive_speeds db) /\
    avg_speed_kmh == avg_speed_mps * 3.6 /\
    avg_fare_tenge == avg_fare_usd * 541 /\
    (0 < avg_distance_km ->
     price_per_km_tenge == avg_fare_tenge / avg_distance_km) /\
    (avg_distance_km <= 0 -> price_per_km_tenge == 0) /\
    (processed_taxi_data db = [] ->
     avg_fare_usd == 0 /\ surge_percentage == 0 /\ price_per_km_tenge == 0).
Proof.
  destruct (calculate_aggregate_metrics_returns db)
    as (avg_speed & avg_fare & avg_duration & avg_distance
        & Hs & Hf & Hd & Hk & Hm).
  cbv zeta in Hm.
  set (surge := if (0 <? Z.of_nat (length (processed_taxi_data db)))%Z
                then _ else _) in Hm.
  set (price := if Qgtb (num_val avg_distance) 0 then _ else _) in Hm.
  eexists.
  exists (num_val avg_speed), (num_val (mul avg_speed (NFloat 3.6))),
    (num_val avg_fare), (num_val (mul avg_fare (NInt 541))),
    (num_val avg_distance), (num_val surge), (num_val price).
  split; [exact Hm |].
  do 7 (split; [eexists; split; [by simplify_map_eq | reflexivity] |]).
  split; [exact Hs |].
  split; [apply num_val_mul |].
  split; [apply num_val_mul |].
  rewrite num_val_mul. cbn [num_val]. change (inject_Z 541) with 541.
  split; [| split].
  - intros Hpos. unfold price.
    apply Qgtb_gt in Hpos as Hg. rewrite Hg.
    rewrite num_val_mul. cbn [num_val]. change (inject_Z 541) with 541.
    field. lra.
  - intros Hle. unfold price.
    apply Qgtb_le in Hle as Hg. rewrite Hg. reflexivity.
  - intros Hnil. unfold price, surge. rewrite Hnil in *.
    cbn [map mean] in Hf, Hk. cbn [length].
    split; [exact Hf |]. split; [reflexivity |].
    assert (Hg : Qgtb (num_val avg_distance) 0 = false)
      by (apply Qgtb_le; lra).
    rewrite Hg. reflexivity.
Qed.

(** C10: the surge percentage lies in [0, 100], since the trips with surge
    applied are among all trips. *)
Theorem surge_percentage_bounded (db : Session) :
  exists (m : gmap string val) (surge_percentage : Q),
    calculate_aggregate_metrics db = Ok m /\
    metric m "surge_percentage" surge_percentage /\
    0 <= surge_percentage <= 100.
Proof.
  destruct (calculate_aggregate_metrics_returns db)
    as (avg_speed & avg_fare & avg_duration & avg_distance
        & _ & _ & _ & _ & Hm).
  cbv zeta in Hm.
  set (taxi_count := Z.of_nat (length (processed_taxi_data db))) in *.
  set (surge_trips :=
         Z.of_nat (length (List.filter ProcessedTaxiData.surge_applied
                             (processed_taxi_data db)))) in *.
  set (surge := if (0 <? taxi_count)%Z then _ else _) in Hm.
  eexists. exists (num_val surge).
  split; [exact Hm |].
  split; [eexists; split; [by simplify_map_eq | reflexivity] |].
  assert (Hle : (0 <= surge_trips <= taxi_count)%Z).
  { unfold surge_trips, taxi_count.
    pose proof (filter_length_le ProcessedTaxiData.surge_applied
                  (processed_taxi_data db)).
    lia. }
  unfold surge.
  destruct (Z.ltb_spec 0 taxi_count) as [Hc | Hc].
  - rewrite num_val_mul. cbn [num_val]. change (inject_Z 100) with 100.
    pose proof (inject_Z_pos taxi_count Hc) as Hq.
    assert (H0 : 0 <= inject_Z surge_trips)
      by (change 0 with (inject_Z 0); rewrite <- Zle_Qle; lia).
    assert (H1 : inject_Z surge_trips <= inject_Z taxi_count)
      by (rewrite <- Zle_Qle; lia).
    assert (Hr : 0 <= inject_Z surge_trips / inject_Z taxi_count <= 1).
    { split.
      - apply Qle_shift_div_l; lra.
      - apply Qle_shift_div_r; lra. }
    lra.
  - cbn [num_val]. change (inject_Z 0) with 0. lra.
Qed.

(** A number has no [get]: the consumer's first field access raises. *)
Lemma get_number_raises (n : num) (k : string) (default : val) :
  exists msg, Py.get (VNum n) k default = Raise (AttributeError msg).
Proof. destruct n; eexists; reflexivity. Qed.

Lemma metric_record_number (utcnow name : string) (n : num) :
  exists msg, metric_record utcnow name (VNum n) = Raise (AttributeError msg).
Proof.
  unfold metric_record.
  destruct (get_number_raises n "value" VNone) as [msg ->].
  by exists msg.
Qed.

(** Items that are bare numbers are all skipped by the saving loop. *)
Lemma save_loop_skips_numbers (utcnow : string)
    (items : list (string * val)) :
  Forall (fun item => exists n : num, item.2 = VNum n) items ->
  forall (acc : Z * list AnalyticsMetrics.t),
  fold_left
    (fun (acc : Z * list AnalyticsMetrics.t) (item : string * val) =>
       let '(saved_count, added) := acc in
       let '(metric_name, metric_data) := item in
       try_except
         (metric_record <- metric_record utcnow metric_name metric_data ;;
          Ok ((saved_count + 1)%Z, added ++ [metric_record]))
         (fun e => (saved_count, added)))
    items acc = acc.
Proof.
  induction 1 as [| [name v] items [n Hn] _ IH]; intros [c added];
    [reflexivity |].
  simpl in Hn. subst v. cbn [fold_left].
  destruct (metric_record_number utcnow name n) as [msg ->].
  cbn [bind try_except]. apply IH.
Qed.

(** C4: the mapping that the aggregator returns holds bare numbers, not
    structures with [value], [type] and [description]; handed to
    [save_analytics_metrics], which reads those fields, every item is
    skipped and nothing is saved. *)
Theorem aggregate_metrics_are_bare_numbers (db : Session) (utcnow : string) :
  exists m : gmap string val,
    calculate_aggregate_metrics db = Ok m /\
    map_Forall (fun _ v => exists n : num, v = VNum n) m /\
    (forall name v, m !! name = Some v ->
       (forall fields, v <> VDict fields) /\
       exists msg, Py.get v "value" VNone = Raise (AttributeError msg)) /\
    m !! "gps_points_count"
      = Some (VNum (NInt (Z.of_nat (length (processed_gps_data db))))) /\
    save_analytics_metrics utcnow m db = (0%Z, db).
Proof.
  destruct (calculate_aggregate_metrics_returns db)
    as (avg_speed & avg_fare & avg_duration & avg_distance
        & _ & _ & _ & _ & Hm).
  cbv zeta in Hm. eexists. split; [exact Hm |].
  match goal with |- map_Forall ?P ?m /\ _ =>
    assert (Hall : map_Forall P m)
  end.
  { repeat (apply map_Forall_insert_2; [by eexists |]).
    apply map_Forall_empty. }
  split; [exact Hall |]. split; [| split].
  - intros name v Hv. destruct (Hall name v Hv) as [n ->].
    split; [discriminate | apply get_number_raises].
  - by simplify_map_eq.
  - unfold save_analytics_metrics.
    rewrite save_loop_skips_numbers.
    + destruct db; simpl. by rewrite app_nil_r.
    + apply map_Forall_to_list in Hall.
      eapply Forall_impl; [exact Hall |].
      intros [name v]. simpl. auto.
Qed.

(** ** The theorems at sample inputs *)

Import Fixtures.

Lemma failing_oracle_falls_back_witness :
  (forall p w, exists e w', failing_llm p w = (Raise e, w')) /\
  length (process_gps_batch failing_llm toy_json_loads clock two_decimals
            gps_table 0%nat).1 = 5%nat /\
  Forall2 taxi_fallback (map snd taxi_table)
    (process_taxi_batch failing_llm toy_json_loads clock taxi_table 0%nat).1.
Proof.
  assert (H : forall p w, exists e w', failing_llm p w = (Raise e, w'))
    by (intros p w; eexists _, _; reflexivity).
  split; [exact H |].
  pose proof (failing_oracle_falls_back failing_llm toy_json_loads clock
                two_decimals H gps_table taxi_table 0%nat) as T.
  cbv zeta in T. split; [exact (proj1 T) | exact (proj2 (proj2 (proj2 T)))].
Defined.

Lemma unparsable_reply_kept_as_text_witness :
  toy_json_loads "Looks like a highway."
    = Raise (JSONDecodeError "Expecting value: line 1 column 1 (char 0)") /\
  exists d,
    (process_gps_batch (canned_llm "Looks like a highway.") toy_json_loads
       clock two_decimals [(0%Z, gps0)] 0%nat).1 = [VDict d] /\
    d !! "insights" = Some (VStr "Looks like a highway.") /\
    d !! "confidence" = Some (vfloat 0.7) /\
    d !! "processed_at" = Some (VStr "2024-05-01T12:00:00").
Proof.
  split; [reflexivity |].
  exact (proj1 (proj2
           (unparsable_reply_kept_as_text
              (canned_llm "Looks like a highway.") toy_json_loads clock
              two_decimals "Looks like a highway." _ eq_refl))
           0%Z gps0 0%nat 1%nat eq_refl).
Defined.

Lemma non_object_json_falls_back_witness :
  toy_json_loads "[1, 2]" = Ok (VList [vint 1; vint 2]) /\
  (forall d, VList [vint 1; vint 2] <> VDict d) /\
  exists msg,
    process_gps_batch (canned_llm "[1, 2]") toy_json_loads clock two_decimals
      [(0%Z, gps0)] 0%nat
    = ([gps_except 0 gps0 (TypeError msg)], 1%nat).
Proof.
  assert (Hnot : forall d, VList [vint 1; vint 2] <> VDict d)
    by (intros d; discriminate).
  split; [reflexivity |]. split; [exact Hnot |].
  destruct (non_object_json_falls_back (canned_llm "[1, 2]") toy_json_loads
              clock two_decimals "[1, 2]" _ eq_refl Hnot)
    as (msg & _ & Hgps & _).
  exists msg. exact (proj1 (Hgps 0%Z gps0 0%nat 1%nat eq_refl)).
Defined.

Lemma batch_driver_partitions_witness :
  (0 < config.BATCH_SIZE)%Z /\
  Z.of_nat (length gps_table_2500) = 2500%Z /\
  exists gps_batches taxi_batches gps_results taxi_results log w1 w2,
    process_all_data failing_llm toy_json_loads clock two_decimals
      config.BATCH_SIZE gps_table_2500 taxi_table 0%nat
      = Ok (gps_results, taxi_results, log, w2) /\
    batch_partition config.BATCH_SIZE gps_table_2500 gps_batches /\
    batch_partition config.BATCH_SIZE taxi_table taxi_batches /\
    run_batches
      (process_gps_batch failing_llm toy_json_loads clock two_decimals)
      gps_batches [] 0%nat = (gps_results, w1) /\
    run_batches (process_taxi_batch failing_llm toy_json_loads clock)
      taxi_batches [] w1 = (taxi_results, w2) /\
    map (fun batch => Z.of_nat (length batch)) gps_batches
      = [1000; 1000; 500]%Z /\
    progress_signals "GPS" log = [(1, 3); (2, 3); (3, 3)]%Z.
Proof.
  assert (Hpos : (0 < config.BATCH_SIZE)%Z) by reflexivity.
  assert (Hlen : Z.of_nat (length gps_table_2500) = 2500%Z)
    by (vm_compute; reflexivity).
  split; [exact Hpos |]. split; [exact Hlen |].
  destruct (batch_driver_partitions failing_llm toy_json_loads clock
              two_decimals config.BATCH_SIZE Hpos gps_table_2500 taxi_table
              0%nat)
    as (gbs & tbs & gr & tr & log & w1 & w2
        & H1 & H2 & H3 & H4 & H5 & _ & _ & H8).
  destruct (H8 eq_refl Hlen) as [H9 H10].
  exists gbs, tbs, gr, tr, log, w1, w2.
  exact (conj H1 (conj H2 (conj H3 (conj H4 (conj H5 (conj H9 H10)))))).
Defined.

(** A corpus with trips: the mean distance is 5 km, the mean fare 20, and
    the price per km 20 / 5 * 541 = 2164. *)
Example aggregate_metrics_sample_corpus :
  exists m : gmap string val,
    calculate_aggregate_metrics corpus = Ok m /\
    metric m "avg_speed_mps" 15 /\
    metric m "avg_speed_kmh" 54 /\
    metric m "avg_fare_usd" 20 /\
    metric m "avg_fare_tenge" 10820 /\
    metric m "avg_distance_km" 5 /\
    metric m "surge_percentage" 50 /\
    metric m "price_per_km_tenge" 2164.
Proof.
  destruct (calculate_aggregate_metrics_returns corpus)
    as (avg_speed & avg_fare & avg_duration & avg_distance
        & Hs & Hf & _ & Hk & Hm).
  cbv zeta in Hm.
  assert (Hs' : num_val avg_speed == 15) by (rewrite Hs; reflexivity).
  assert (Hf' : num_val avg_fare == 20) by (rewrite Hf; reflexivity).
  assert (Hk' : num_val avg_distance == 5) by (rewrite Hk; reflexivity).
  assert (Hg : Qgtb (num_val avg_distance) 0 = true)
    by (apply Qgtb_gt; rewrite Hk'; reflexivity).
  rewrite Hg in Hm.
  eexists. split; [exact Hm |].
  repeat apply conj;
    (eexists; split; [by simplify_map_eq |]);
    rewrite ?num_val_mul; cbn [num_val];
    rewrite ?Hs', ?Hf', ?Hk'; reflexivity.
Qed.

(** The empty corpus: every metric is the bare integer 0 and nothing is
    saved from them. *)
Example aggregate_metrics_empty_corpus :
  calculate_aggregate_metrics empty_corpus
  = Ok {[ "gps_points_count" := vint 0; "avg_speed_mps" := vint 0;
          "avg_speed_kmh" := vfloat (0 * 3.6); "taxi_trips_count" := vint 0;
          "avg_fare_usd" := vint 0; "avg_fare_tenge" := vint 0;
          "avg_trip_duration_min" := vint 0; "avg_distance_km" := vint 0;
          "surge_percentage" := vint 0; "price_per_km_tenge" := vint 0 ]}.
Proof. reflexivity. Qed.

Example classify_examples :
  _classify_area 51.2 = "North" /\
  _classify_area 51 = "South" /\
  _classify_activity 12.5 = "High" /\
  _classify_activity 3 = "Low" /\
  _classify_trip_duration 10 = "Medium" /\
  _classify_trip_duration 30 = "Long" /\
  _classify_price 4 2 = "Medium" /\
  _classify_price 100 10 = "Premium" /\
  _calculate_efficiency 30 45 == 1 # 4.
Proof. repeat split. Qed.

Example range_2500_1000 : range 0 2500 1000 = Ok [0; 1000; 2000]%Z.
Proof. reflexivity. Qed.

Example range_zero_step :
  range 0 2500 0 = Raise (ValueError "range() arg 3 must not be zero").
Proof. reflexivity. Qed.

Example iloc_last_batch :
  iloc [1; 2; 3; 4; 5]%Z 4 6 = [5%Z] /\ iloc [1; 2; 3; 4; 5]%Z 2 4 = [3; 4]%Z.
Proof. split; reflexivity. Qed.

(** * Further properties of the code *)

(** ** Classifier rules *)


(** X3: Every rule answers with one of its own labels. *)
Theorem classifier_labels_closed (lat speed duration fare distance : Q) :
  In (_classify_area lat) ["North"; "Center"; "South"] /\
  In (_classify_activity speed) ["High"; "Medium"; "Low"] /\
  In (_classify_trip_duration duration) ["Short"; "Medium"; "Long"] /\
  In (_classify_price fare distance)
    ["Low"; "Medium"; "High"; "Premium"; "Unknown"].
Proof.
  unfold _classify_area, _classify_activity, _classify_trip_duration,
    _classify_price.
  cbv zeta.
  repeat match goal with
         | |- context [if ?b then _ else _] => destruct b
         end;
    cbn [In]; tauto.
Qed.



Lemma Qmin_mono_l (x y c : Q) : x <= y -> Qmin x c <= Qmin y c.
Proof.
  intros H.
  destruct (Q.min_spec x c) as [[? ->] | [? ->]],
           (Q.min_spec y c) as [[? ->] | [? ->]]; lra.
Qed.

Lemma Qmax_mono_r (c x y : Q) : x <= y -> Qmax c x <= Qmax c y.
Proof.
  intros H.
  destruct (Q.max_spec c x) as [[? ->] | [? ->]],
           (Q.max_spec c y) as [[? ->] | [? ->]]; lra.
Qed.

(** X6: A faster or a shorter trip never scores lower. *)
Theorem calculate_efficiency_monotone (speed speed' duration duration' : Q) :
  speed <= speed' -> duration' <= duration ->
  _calculate_efficiency speed duration
  <= _calculate_efficiency speed' duration'.
Proof.
  intros Hs Hd. unfold _calculate_efficiency. cbv zeta.
  assert (Hs60 : speed / 60 <= speed' / 60).
  { unfold Qdiv. apply Qmult_le_compat_r; [assumption | discriminate]. }
  assert (Hd30 : (duration' - 15) / 30 <= (duration - 15) / 30).
  { unfold Qdiv. apply Qmult_le_compat_r; [lra | discriminate]. }
  pose proof (Qmin_mono_l (speed / 60) (speed' / 60) 1.0 Hs60) as H1.
  pose proof (Qmax_mono_r 0 (1 - (duration - 15) / 30)
                (1 - (duration' - 15) / 30) ltac:(lra)) as H2.
  apply Qmult_le_compat_r; [lra | discriminate].
Qed.

Lemma calculate_efficiency_monotone_witness :
  30 <= 45 /\ 20 <= 40 /\
  _calculate_efficiency 30 40 <= _calculate_efficiency 45 20.
Proof.
  assert (Hs : 30 <= 45) by (unfold Qle; simpl; lia).
  assert (Hd : 20 <= 40) by (unfold Qle; simpl; lia).
  split; [exact Hs |]. split; [exact Hd |].
  exact (calculate_efficiency_monotone 30 45 40 20 Hs Hd).
Defined.

(** ** Enrichment engine: the merge and the batches *)

Section EngineMerge.

Context {World : Type}.
Variable llm : prompt -> World -> result string * World.
Variable json_loads : string -> result val.
Variable now_isoformat : World -> string.
Variable format_2f : Q -> string.












End EngineMerge.


(** ** Batches compose *)

Section BatchComposition.

Context {World : Type}.
Variable llm : prompt -> World -> result string * World.
Variable json_loads : string -> result val.
Variable now_isoformat : World -> string.
Variable format_2f : Q -> string.

Lemma gps_loop_app (rows rows' : DataFrame GpsRow) :
  forall (acc : list val) (w : World),
  gps_loop llm json_loads now_isoformat format_2f (rows ++ rows') acc w =
  let '(acc', w') :=
    gps_loop llm json_loads now_isoformat format_2f rows acc w in
  gps_loop llm json_loads now_isoformat format_2f rows' acc' w'.
Proof.
  induction rows as [| [idx row] rest IH]; intros acc w; simpl;
    [reflexivity |].
  destruct (gps_record _ _ _ _ idx row w) as [rec w']. apply IH.
Qed.

Lemma gps_loop_acc (rows : DataFrame GpsRow) :
  forall (acc : list val) (w : World),
  gps_loop llm json_loads now_isoformat format_2f rows acc w =
  (acc ++ (gps_loop llm json_loads now_isoformat format_2f rows [] w).1,
   (gps_loop llm json_loads now_isoformat format_2f rows [] w).2).
Proof.
  induction rows as [| [idx row] rest IH]; intros acc w; simpl.
  - by rewrite app_nil_r.
  - destruct (gps_record _ _ _ _ idx row w) as [rec w'].
    rewrite (IH (acc ++ [rec])), (IH [rec]). simpl.
    by rewrite <- app_assoc.
Qed.

Lemma taxi_loop_app (rows rows' : DataFrame TaxiRow) :
  forall (acc : list val) (w : World),
  taxi_loop llm json_loads now_isoformat (rows ++ rows') acc w =
  let '(acc', w') := taxi_loop llm json_loads now_isoformat rows acc w in
  taxi_loop llm json_loads now_isoformat rows' acc' w'.
Proof.
  induction rows as [| [idx row] rest IH]; intros acc w; simpl;
    [reflexivity |].
  destruct (taxi_record _ _ _ idx row w) as [rec w']. apply IH.
Qed.

Lemma taxi_loop_acc (rows : DataFrame TaxiRow) :
  forall (acc : list val) (w : World),
  taxi_loop llm json_loads now_isoformat rows acc w =
  (acc ++ (taxi_loop llm json_loads now_isoformat rows [] w).1,
   (taxi_loop llm json_loads now_isoformat rows [] w).2).
Proof.
  induction rows as [| [idx row] rest IH]; intros acc w; simpl.
  - by rewrite app_nil_r.
  - destruct (taxi_record _ _ _ idx row w) as [rec w'].
    rewrite (IH (acc ++ [rec])), (IH [rec]). simpl.
    by rewrite <- app_assoc.
Qed.

Lemma process_gps_batch_app (gps gps' : DataFrame GpsRow) (w : World) :
  let process_gps :=
    process_gps_batch llm json_loads now_isoformat format_2f in
  process_gps (gps ++ gps') w =
    ((process_gps gps w).1 ++ (process_gps gps' (process_gps gps w).2).1,
     (process_gps gps' (process_gps gps w).2).2).
Proof.
  cbv zeta. unfold process_gps_batch.
  rewrite gps_loop_app.
  destruct (gps_loop _ _ _ _ gps [] w) as [acc w'].
  by rewrite gps_loop_acc.
Qed.

Lemma process_taxi_batch_app (taxi taxi' : DataFrame TaxiRow) (w : World) :
  let process_taxi := process_taxi_batch llm json_loads now_isoformat in
  process_taxi (taxi ++ taxi') w =
    ((process_taxi taxi w).1 ++ (process_taxi taxi' (process_taxi taxi w).2).1,
     (process_taxi taxi' (process_taxi taxi w).2).2).
Proof.
  cbv zeta. unfold process_taxi_batch.
  rewrite taxi_loop_app.
  destruct (taxi_loop _ _ _ taxi [] w) as [acc w'].
  by rewrite taxi_loop_acc.
Qed.

(** X9: Processing two batches one after the other, the second from the world
    the first left, is processing their concatenation. *)
Theorem process_batches_compose
    (gps gps' : DataFrame GpsRow) (taxi taxi' : DataFrame TaxiRow)
    (w : World) :
  let process_gps :=
    process_gps_batch llm json_loads now_isoformat format_2f in
  let process_taxi := process_taxi_batch llm json_loads now_isoformat in
  process_gps (gps ++ gps') w =
    ((process_gps gps w).1 ++ (process_gps gps' (process_gps gps w).2).1,
     (process_gps gps' (process_gps gps w).2).2) /\
  process_taxi (taxi ++ taxi') w =
    ((process_taxi taxi w).1 ++ (process_taxi taxi' (process_taxi taxi w).2).1,
     (process_taxi taxi' (process_taxi taxi w).2).2).
Proof.
  cbv zeta. split;
    [apply process_gps_batch_app | apply process_taxi_batch_app].
Qed.

End BatchComposition.

Section DriverTransparency.

Context {World Row : Type}.
Variable process_batch : DataFrame Row -> World -> list val * World.
Hypothesis process_batch_app :
  forall (a b : DataFrame Row) (w : World),
    process_batch (a ++ b) w =
    ((process_batch a w).1 ++ (process_batch b (process_batch a w).2).1,
     (process_batch b (process_batch a w).2).2).
Hypothesis process_batch_nil :
  forall w : World, process_batch [] w = ([], w).

Lemma run_batches_concat (batches : list (DataFrame Row)) :
  forall (acc : list val) (w : World),
  run_batches process_batch batches acc w =
  (acc ++ (process_batch (concat batches) w).1,
   (process_batch (concat batches) w).2).
Proof.
  induction batches as [| b rest IH]; intros acc w; simpl.
  - rewrite process_batch_nil. simpl. by rewrite app_nil_r.
  - destruct (process_batch b w) as [r w'] eqn:Eb.
    rewrite IH, process_batch_app, Eb. simpl.
    by rewrite <- app_assoc.
Qed.

End DriverTransparency.

Section DriverResults.

Context {World : Type}.
Variable llm : prompt -> World -> result string * World.
Variable json_loads : string -> result val.
Variable now_isoformat : World -> string.
Variable format_2f : Q -> string.
Variable BATCH_SIZE : Z.

(** X10: Batching is invisible in the output: for a positive batch size the
    driver returns what one pass over each whole table returns, GPS first
    and trips from the world the GPS pass left; so it returns one record per
    row of each table. *)
Theorem batching_is_transparent (Hpos : (0 < BATCH_SIZE)%Z)
    (gps_df : DataFrame GpsRow) (taxi_df : DataFrame TaxiRow) (w : World) :
  let gps_pass :=
    process_gps_batch llm json_loads now_isoformat format_2f gps_df w in
  let taxi_pass :=
    process_taxi_batch llm json_loads now_isoformat taxi_df gps_pass.2 in
  (exists log,
     process_all_data llm json_loads now_isoformat format_2f BATCH_SIZE
       gps_df taxi_df w = Ok (gps_pass.1, taxi_pass.1, log, taxi_pass.2)) /\
  length gps_pass.1 = length gps_df /\
  length taxi_pass.1 = length taxi_df.
Proof.
  cbv zeta.
  split; [| split;
            [apply process_gps_batch_length | apply process_taxi_batch_length]].
  set (log0 := [LogInfo "Loading GPS data..."; LogInfo "Loading taxi data...";
                LogInfo "Processing GPS data..."]).
  destruct (batch_loop_partition
              (process_gps_batch llm json_loads now_isoformat format_2f)
              BATCH_SIZE Hpos "GPS" gps_df log0 w)
    as (gbs & goffs & Hgr & [Hgc _] & _ & _ & Hgloop).
  rewrite run_batches_concat in Hgloop.
  2:{ intros a b w0.
      apply (process_gps_batch_app llm json_loads now_isoformat format_2f). }
  2:{ reflexivity. }
  rewrite Hgc in Hgloop. cbn [fst snd app] in Hgloop.
  set (gps_pass := process_gps_batch _ _ _ _ gps_df w) in *.
  set (log1 := (log0 ++ map (fun ct => Progress "GPS" ct.1 ct.2)
                          (counting_up (length gbs)))
               ++ [LogInfo "Processing taxi data..."]).
  destruct (batch_loop_partition
              (process_taxi_batch llm json_loads now_isoformat)
              BATCH_SIZE Hpos "taxi" taxi_df log1 gps_pass.2)
    as (tbs & toffs & Htr & [Htc _] & _ & _ & Htloop).
  rewrite run_batches_concat in Htloop.
  2:{ intros a b w0.
      apply (process_taxi_batch_app llm json_loads now_isoformat). }
  2:{ reflexivity. }
  rewrite Htc in Htloop. cbn [fst snd app] in Htloop.
  eexists.
  unfold process_all_data. rewrite Hgr. cbn [bind]. fold log0.
  rewrite Hgloop. fold log1. rewrite Htr. cbn [bind].
  rewrite Htloop. reflexivity.
Qed.

(** X11: A batch size of zero makes the driver raise before any record is
    processed; a negative one makes it return no record at all, without
    calling the oracle and without a progress signal. *)
Theorem nonpositive_batch_size
    (gps_df : DataFrame GpsRow) (taxi_df : DataFrame TaxiRow) (w : World) :
  (BATCH_SIZE = 0%Z ->
   process_all_data llm json_loads now_isoformat format_2f BATCH_SIZE
     gps_df taxi_df w
   = Raise (ValueError "range() arg 3 must not be zero")) /\
  ((BATCH_SIZE < 0)%Z ->
   process_all_data llm json_loads now_isoformat format_2f BATCH_SIZE
     gps_df taxi_df w
   = Ok ([], [],
         [LogInfo "Loading GPS data..."; LogInfo "Loading taxi data...";
          LogInfo "Processing GPS data..."; LogInfo "Processing taxi data..."],
         w)).
Proof.
  split.
  - intros ->. reflexivity.
  - intros Hneg.
    assert (Hrange : forall n : nat,
              range 0 (Z.of_nat n) BATCH_SIZE = Ok []).
    { intros n. unfold range.
      destruct (Z.eqb_spec BATCH_SIZE 0) as [? | _]; [lia |].
      destruct (Z.ltb_spec 0 BATCH_SIZE) as [? | _]; [lia |].
      assert (Hlen : ((0 - Z.of_nat n - BATCH_SIZE - 1) / - BATCH_SIZE < 1)%Z)
        by (apply Z.div_lt_upper_bound; lia).
      replace (Z.to_nat ((0 - Z.of_nat n - BATCH_SIZE - 1) / - BATCH_SIZE))
        with 0%nat by lia.
      reflexivity. }
    unfold process_all_data. rewrite !Hrange. reflexivity.
Qed.

End DriverResults.

Lemma batching_is_transparent_witness :
  (0 < config.BATCH_SIZE)%Z /\
  exists log,
    process_all_data failing_llm toy_json_loads clock two_decimals
      config.BATCH_SIZE gps_table taxi_table 0%nat
    = Ok ((process_gps_batch failing_llm toy_json_loads clock two_decimals
             gps_table 0%nat).1,
          (process_taxi_batch failing_llm toy_json_loads clock taxi_table
             (process_gps_batch failing_llm toy_json_loads clock two_decimals
                gps_table 0%nat).2).1,
          log,
          (process_taxi_batch failing_llm toy_json_loads clock taxi_table
             (process_gps_batch failing_llm toy_json_loads clock two_decimals
                gps_table 0%nat).2).2).
Proof.
  assert (Hpos : (0 < config.BATCH_SIZE)%Z) by reflexivity.
  split; [exact Hpos |].
  exact (proj1 (batching_is_transparent failing_llm toy_json_loads clock
                  two_decimals config.BATCH_SIZE Hpos gps_table taxi_table
                  0%nat)).
Defined.

(** ** Aggregator: the remaining metrics *)

Ltac metric_now :=
  eexists; split; [by simplify_map_eq | cbn [num_val]].

(** X12: The counts are the table sizes, the fare, duration and distance
    averages are means over all trips, the surge percentage is the share of
    surge trips times 100, and the mapping has the ten metric names and no
    other key. *)
Theorem aggregate_counts_and_means (db : Session) :
  exists m : gmap string val,
    calculate_aggregate_metrics db = Ok m /\
    m !! "gps_points_count"
      = Some (vint (Z.of_nat (length (processed_gps_data db)))) /\
    m !! "taxi_trips_count"
      = Some (vint (Z.of_nat (length (processed_taxi_data db)))) /\
    metric m "avg_fare_usd"
      (mean (map ProcessedTaxiData.total_fare_new (processed_taxi_data db))) /\
    metric m "avg_trip_duration_min"
      (mean (map ProcessedTaxiData.trip_duration_min
               (processed_taxi_data db))) /\
    metric m "avg_distance_km"
      (mean (map ProcessedTaxiData.distance_traveled_km
               (processed_taxi_data db))) /\
    (processed_taxi_data db <> [] ->
     metric m "surge_percentage"
       (inject_Z (Z.of_nat (length (surge_trips db)))
        / inject_Z (Z.of_nat (length (processed_taxi_data db))) * 100)) /\
    (forall k : string, is_Some (m !! k) <-> In k metric_names).
Proof.
  destruct (calculate_aggregate_metrics_returns db)
    as (avg_speed & avg_fare & avg_duration & avg_distance
        & Hs & Hf & Hd & Hk & Hm).
  cbv zeta in Hm.
  set (surge := if (0 <? Z.of_nat (length (processed_taxi_data db)))%Z
                then _ else _) in Hm.
  set (price := if Qgtb (num_val avg_distance) 0 then _ else _) in Hm.
  eexists. split; [exact Hm |].
  split; [by simplify_map_eq |].
  split; [by simplify_map_eq |].
  split; [metric_now; exact Hf |].
  split; [metric_now; exact Hd |].
  split; [metric_now; exact Hk |].
  split.
  - intros Hne. metric_now. unfold surge.
    destruct (Z.ltb_spec 0 (Z.of_nat (length (processed_taxi_data db))))
      as [_ | Hle].
    + rewrite num_val_mul. reflexivity.
    + destruct (processed_taxi_data db); [done | simpl in Hle; lia].
  - intros k. rewrite <- elem_of_dom, !dom_insert_L, dom_singleton_L.
    unfold metric_names. rewrite <- list_elem_of_In.
    rewrite !elem_of_union, !elem_of_singleton, !elem_of_cons, elem_of_nil.
    tauto.
Qed.

Lemma Qsum_nonneg (l : list Q) : Forall (fun q => 0 < q) l -> 0 <= Qsum l.
Proof.
  induction 1 as [| q l Hq _ IH]; cbn [Qsum fold_right]; [lra |].
  fold (Qsum l). lra.
Qed.

Lemma mean_positive (l : list Q) :
  Forall (fun q => 0 < q) l -> l <> [] -> 0 < mean l.
Proof.
  intros Hall Hne. destruct l as [| q l]; [done |].
  cbn [mean]. apply Qlt_shift_div_l.
  - apply inject_Z_pos. simpl. lia.
  - inversion Hall as [| ? ? Hq Hl]; subst.
    cbn [Qsum fold_right]. fold (Qsum l).
    pose proof (Qsum_nonneg l Hl). lra.
Qed.

Lemma positive_speeds_positive (db : Session) :
  Forall (fun q => 0 < q) (positive_speeds db).
Proof.
  unfold positive_speeds. apply Forall_forall. intros q Hq.
  apply list_elem_of_In, filter_In in Hq as [_ Hq].
  by apply Qltb_lt.
Qed.

(** X13: The average speed is never negative, whatever speeds are stored: it is
    0 when no GPS point has a positive speed and positive otherwise; the
    same holds for its km/h form. *)
Theorem avg_speed_sign (db : Session) :
  exists (m : gmap string val) (avg_speed_mps avg_speed_kmh : Q),
    calculate_aggregate_metrics db = Ok m /\
    metric m "avg_speed_mps" avg_speed_mps /\
    metric m "avg_speed_kmh" avg_speed_kmh /\
    (positive_speeds db = [] -> avg_speed_mps == 0 /\ avg_speed_kmh == 0) /\
    (positive_speeds db <> [] -> 0 < avg_speed_mps /\ 0 < avg_speed_kmh).
Proof.
  destruct (calculate_aggregate_metrics_returns db)
    as (avg_speed & avg_fare & avg_duration & avg_distance
        & Hs & _ & _ & _ & Hm).
  cbv zeta in Hm.
  eexists. exists (num_val avg_speed), (num_val (mul avg_speed (NFloat 3.6))).
  split; [exact Hm |].
  split; [metric_now; reflexivity |].
  split; [metric_now; reflexivity |].
  rewrite num_val_mul. cbn [num_val]. split.
  - intros Hnil. rewrite Hnil in Hs. cbn [mean] in Hs. rewrite Hs.
    split; [reflexivity | lra].
  - intros Hne.
    pose proof (mean_positive _ (positive_speeds_positive db) Hne) as Hpos.
    rewrite Hs. split; [exact Hpos | lra].
Qed.

(** ** Aggregator: row order *)






(** ** Writing enriched records *)

Section SavingProperties.

Variable json_dumps : val -> result string.

Lemma save_gps_fold (items : list val) :
  forall (n : Z) (added : list GpsObject.t),
  fold_left
    (fun (acc : Z * list GpsObject.t) (data : val) =>
       let '(saved_count, added) := acc in
       try_except
         (gps_record <- gps_object json_dumps data ;;
          Ok ((saved_count + 1)%Z, added ++ [gps_record]))
         (fun e => (saved_count, added)))
    items (n, added)
  = ((n + (save_gps_data json_dumps items).1)%Z,
     added ++ (save_gps_data json_dumps items).2).
Proof.
  unfold save_gps_data.
  induction items as [| data items IH]; intros n added; cbn [fold_left].
  - cbn [fst snd]. by rewrite Z.add_0_r, app_nil_r.
  - destruct (gps_object json_dumps data) as [o | e]; cbn [bind try_except].
    + rewrite (IH (n + 1)%Z), (IH (0 + 1)%Z). cbn [fst snd].
      rewrite <- app_assoc. f_equal. lia.
    + apply IH.
Qed.

Lemma save_taxi_fold (items : list val) :
  forall (n : Z) (added : list TaxiObject.t),
  fold_left
    (fun (acc : Z * list TaxiObject.t) (data : val) =>
       let '(saved_count, added) := acc in
       try_except
         (taxi_record <- taxi_object json_dumps data ;;
          Ok ((saved_count + 1)%Z, added ++ [taxi_record]))
         (fun e => (saved_count, added)))
    items (n, added)
  = ((n + (save_taxi_data json_dumps items).1)%Z,
     added ++ (save_taxi_data json_dumps items).2).
Proof.
  unfold save_taxi_data.
  induction items as [| data items IH]; intros n added; cbn [fold_left].
  - cbn [fst snd]. by rewrite Z.add_0_r, app_nil_r.
  - destruct (taxi_object json_dumps data) as [o | e]; cbn [bind try_except].
    + rewrite (IH (n + 1)%Z), (IH (0 + 1)%Z). cbn [fst snd].
      rewrite <- app_assoc. f_equal. lia.
    + apply IH.
Qed.

Lemma save_gps_data_app (a b : list val) :
  save_gps_data json_dumps (a ++ b)
  = (((save_gps_data json_dumps a).1 + (save_gps_data json_dumps b).1)%Z,
     (save_gps_data json_dumps a).2 ++ (save_gps_data json_dumps b).2).
Proof.
  unfold save_gps_data at 1. rewrite fold_left_app.
  fold (save_gps_data json_dumps a).
  destruct (save_gps_data json_dumps a) as [n added].
  apply save_gps_fold.
Qed.

Lemma save_taxi_data_app (a b : list val) :
  save_taxi_data json_dumps (a ++ b)
  = (((save_taxi_data json_dumps a).1 + (save_taxi_data json_dumps b).1)%Z,
     (save_taxi_data json_dumps a).2 ++ (save_taxi_data json_dumps b).2).
Proof.
  unfold save_taxi_data at 1. rewrite fold_left_app.
  fold (save_taxi_data json_dumps a).
  destruct (save_taxi_data json_dumps a) as [n added].
  apply save_taxi_fold.
Qed.

Lemma save_gps_data_one (data : val) :
  save_gps_data json_dumps [data]
  = match gps_object json_dumps data with
    | Ok o => (1%Z, [o])
    | Raise _ => (0%Z, [])
    end.
Proof.
  unfold save_gps_data. cbn [fold_left].
  by destruct (gps_object json_dumps data).
Qed.

Lemma save_gps_data_count (items : list val) :
  (save_gps_data json_dumps items).1
    = Z.of_nat (length (save_gps_data json_dumps items).2) /\
  (length (save_gps_data json_dumps items).2 <= length items)%nat.
Proof.
  induction items as [| data items [IH1 IH2]]; [split; reflexivity |].
  change (data :: items) with ([data] ++ items).
  rewrite save_gps_data_app. cbn [fst snd].
  rewrite length_app, IH1, save_gps_data_one.
  destruct (gps_object json_dumps data); cbn [fst snd app length]; split; lia.
Qed.

Lemma save_taxi_data_one (data : val) :
  save_taxi_data json_dumps [data]
  = match taxi_object json_dumps data with
    | Ok o => (1%Z, [o])
    | Raise _ => (0%Z, [])
    end.
Proof.
  unfold save_taxi_data. cbn [fold_left].
  by destruct (taxi_object json_dumps data).
Qed.

Lemma save_taxi_data_count (items : list val) :
  (save_taxi_data json_dumps items).1
    = Z.of_nat (length (save_taxi_data json_dumps items).2) /\
  (length (save_taxi_data json_dumps items).2 <= length items)%nat.
Proof.
  induction items as [| data items [IH1 IH2]]; [split; reflexivity |].
  change (data :: items) with ([data] ++ items).
  rewrite save_taxi_data_app. cbn [fst snd].
  rewrite length_app, IH1, save_taxi_data_one.
  destruct (taxi_object json_dumps data); cbn [fst snd app length]; split; lia.
Qed.

Lemma get_non_dict_raises (v : val) (k : string) (default : val) :
  (forall d, v <> VDict d) ->
  exists msg, Py.get v k default = Raise (AttributeError msg).
Proof.
  intros Hv. destruct v as [| b | [z | q] | s | l | d];
    try (eexists; reflexivity).
  exfalso. by apply (Hv d).
Qed.

(** X17: The two saving loops count exactly the objects they add, never more
    than the records they were given; they work record by record, so that
    saving a concatenation is saving the parts; and a record that is not a
    dictionary is skipped without an object and without stopping the loop. *)
Theorem save_data_counts_and_skips (a b : list val) (bad : val) :
  let save_gps := save_gps_data json_dumps in
  let save_taxi := save_taxi_data json_dumps in
  ((save_gps a).1 = Z.of_nat (length (save_gps a).2) /\
   (length (save_gps a).2 <= length a)%nat /\
   save_gps (a ++ b)
     = (((save_gps a).1 + (save_gps b).1)%Z, (save_gps a).2 ++ (save_gps b).2) /\
   ((forall d, bad <> VDict d) ->
    save_gps (a ++ bad :: b) = save_gps (a ++ b))) /\
  ((save_taxi a).1 = Z.of_nat (length (save_taxi a).2) /\
   (length (save_taxi a).2 <= length a)%nat /\
   save_taxi (a ++ b)
     = (((save_taxi a).1 + (save_taxi b).1)%Z,
        (save_taxi a).2 ++ (save_taxi b).2) /\
   ((forall d, bad <> VDict d) ->
    save_taxi (a ++ bad :: b) = save_taxi (a ++ b))).
Proof.
  cbv zeta. split.
  - split; [apply save_gps_data_count |].
    split; [apply save_gps_data_count |].
    split; [apply save_gps_data_app |].
    intros Hbad.
    change (bad :: b) with ([bad] ++ b).
    rewrite !save_gps_data_app.
    assert (Hone : save_gps_data json_dumps [bad] = (0%Z, [])).
    { unfold save_gps_data, gps_object. cbn [fold_left].
      destruct (get_non_dict_raises bad "original_id" VNone Hbad) as [msg ->].
      reflexivity. }
    rewrite Hone. cbn [fst snd app]. f_equal.
  - split; [apply save_taxi_data_count |].
    split; [apply save_taxi_data_count |].
    split; [apply save_taxi_data_app |].
    intros Hbad.
    change (bad :: b) with ([bad] ++ b).
    rewrite !save_taxi_data_app.
    assert (Hone : save_taxi_data json_dumps [bad] = (0%Z, [])).
    { unfold save_taxi_data, taxi_object. cbn [fold_left].
      destruct (get_non_dict_raises bad "trip_duration_sec" VNone Hbad)
        as [msg ->].
      reflexivity. }
    rewrite Hone. cbn [fst snd app]. f_equal.
Qed.

End SavingProperties.

Section Pipeline.

Context {World : Type}.
Variable llm : prompt -> World -> result string * World.
Variable json_loads : string -> result val.
Variable now_isoformat : World -> string.
Variable format_2f : Q -> string.
Variable json_dumps : val -> result string.
Hypothesis json_dumps_total : forall v : val, exists s, json_dumps v = Ok s.






End Pipeline.

(** ** Metrics: saving and reading back *)

Lemma save_loop_dicts (utcnow : string) (items : list (string * val)) :
  Forall (fun item => exists d, item.2 = VDict d) items ->
  forall (n : Z) (added : list AnalyticsMetrics.t),
  fold_left
    (fun (acc : Z * list AnalyticsMetrics.t) (item : string * val) =>
       let '(saved_count, added) := acc in
       let '(metric_name, metric_data) := item in
       try_except
         (metric_record <- metric_record utcnow metric_name metric_data ;;
          Ok ((saved_count + 1)%Z, added ++ [metric_record]))
         (fun e => (saved_count, added)))
    items (n, added)
  = ((n + Z.of_nat (length items))%Z,
     added ++ map (stored_metric utcnow) items).
Proof.
  induction 1 as [| [name v] items [d Hd] _ IH]; intros n added.
  - cbn [fold_left length map]. by rewrite Z.add_0_r, app_nil_r.
  - simpl in Hd. subst v. cbn [fold_left].
    unfold metric_record, Py.get. cbn [bind try_except].
    rewrite IH. cbn [length map]. rewrite <- app_assoc. f_equal. lia.
Qed.

Lemma get_fold_lookup (records : list AnalyticsMetrics.t) (name : string) :
  NoDup (map AnalyticsMetrics.metric_name records) ->
  forall acc : gmap string val,
  fold_left
    (fun (acc : gmap string val) (record : AnalyticsMetrics.t) =>
       <[AnalyticsMetrics.metric_name record :=
           VDict {[ "value" := AnalyticsMetrics.metric_value record;
                    "type" := AnalyticsMetrics.metric_type record;
                    "description" := AnalyticsMetrics.description record;
                    "calculated_at" :=
                      VStr (AnalyticsMetrics.calculated_at record) ]}]> acc)
    records acc !! name
  = match List.find (fun r => String.eqb (AnalyticsMetrics.metric_name r) name)
            records with
    | Some record =>
        Some (VDict {[ "value" := AnalyticsMetrics.metric_value record;
                       "type" := AnalyticsMetrics.metric_type record;
                       "description" := AnalyticsMetrics.description record;
                       "calculated_at" :=
                         VStr (AnalyticsMetrics.calculated_at record) ]})
    | None => acc !! name
    end.
Proof.
  induction records as [| r records IH]; intros Hnd acc; [reflexivity |].
  cbn [map] in Hnd. apply NoDup_cons in Hnd as [Hnotin Hnd].
  cbn [fold_left List.find]. rewrite (IH Hnd).
  destruct (String.eqb_spec (AnalyticsMetrics.metric_name r) name) as [<- | Hne].
  - destruct (List.find _ records) as [r' |] eqn:Ef.
    + apply find_some in Ef as [Hin Heq].
      apply String.eqb_eq in Heq. exfalso. apply Hnotin.
      rewrite <- Heq. apply list_elem_of_In, in_map, Hin.
    + apply lookup_insert_eq.
  - destruct (List.find _ records); [reflexivity |].
    by apply lookup_insert_ne.
Qed.

(** X20: Metrics that are structures fitting the columns survive a round trip
    through an empty metrics table: all of them are saved, and reading back
    gives, under each name, the value, type and description that were given
    (None, "CALCULATED" and the empty string where the structure has none)
    with a time stamp, and gives no other name. *)
Theorem metrics_round_trip (utcnow : string) (metrics : gmap string val)
    (db : Session)
    (Hempty : analytics_metrics db = [])
    (Hshape : map_Forall (fun _ v => exists d, v = VDict d /\
                                        fits_metric_columns d) metrics) :
  let saved := save_analytics_metrics utcnow metrics db in
  saved.1 = Z.of_nat (size metrics) /\
  (forall (name : string) (d : gmap string val),
     metrics !! name = Some (VDict d) ->
     exists r : gmap string val,
       get_analytics_metrics saved.2 !! name = Some (VDict r) /\
       r !! "value" = Some (default VNone (d !! "value")) /\
       r !! "type" = Some (default (VStr "CALCULATED") (d !! "type")) /\
       r !! "description" = Some (default (VStr "") (d !! "description")) /\
       is_Some (r !! "calculated_at")) /\
  (forall name : string,
     metrics !! name = None ->
     get_analytics_metrics saved.2 !! name = None).
Proof.
  cbv zeta. unfold save_analytics_metrics.
  assert (Hitems : Forall (fun item : string * val =>
                             exists d, item.2 = VDict d)
                     (map_to_list metrics)).
  { apply map_Forall_to_list in Hshape.
    eapply Forall_impl; [exact Hshape |].
    intros [name v] (d & -> & _). by exists d. }
  rewrite (save_loop_dicts utcnow _ Hitems). cbn [fst snd app].
  rewrite Hempty. cbn [app].
  split; [by rewrite length_map_to_list |].
  unfold get_analytics_metrics. cbn [analytics_metrics].
  assert (Hnd : NoDup (map AnalyticsMetrics.metric_name
                         (map (stored_metric utcnow) (map_to_list metrics)))).
  { rewrite map_map. cbn [stored_metric AnalyticsMetrics.metric_name].
    apply (NoDup_fst_map_to_list metrics). }
  split.
  - intros name d Hd.
    rewrite (get_fold_lookup _ name Hnd).
    destruct (List.find _ _) as [r |] eqn:Ef.
    + apply find_some in Ef as [Hin Heq].
      apply String.eqb_eq in Heq.
      apply in_map_iff in Hin as ([name' v] & <- & Hin).
      cbn [stored_metric AnalyticsMetrics.metric_name fst] in Heq. subst name'.
      apply list_elem_of_In, elem_of_map_to_list in Hin.
      assert (v = VDict d) by congruence. subst v.
      eexists. split; [reflexivity |].
      cbn [stored_metric AnalyticsMetrics.metric_value
             AnalyticsMetrics.metric_type AnalyticsMetrics.description
             AnalyticsMetrics.calculated_at snd].
      repeat split; by simplify_map_eq.
    + exfalso.
      apply elem_of_map_to_list, list_elem_of_In in Hd.
      pose proof (find_none _ _ Ef (stored_metric utcnow (name, VDict d))
                    (in_map _ _ _ Hd)) as Hf.
      cbn [stored_metric AnalyticsMetrics.metric_name fst] in Hf.
      rewrite String.eqb_refl in Hf. discriminate.
  - intros name Hnone.
    rewrite (get_fold_lookup _ name Hnd).
    destruct (List.find _ _) as [r |] eqn:Ef; [| apply lookup_empty].
    apply find_some in Ef as [Hin Heq].
    apply String.eqb_eq in Heq.
    apply in_map_iff in Hin as ([name' v] & <- & Hin).
    cbn [stored_metric AnalyticsMetrics.metric_name fst] in Heq. subst name'.
    apply list_elem_of_In, elem_of_map_to_list in Hin. congruence.
Qed.

(** ** Reading records back *)

Lemma comprehension_ok {A B : Type} (f : A -> result B) (l : list A) :
  Forall (fun x => exists y, f x = Ok y) l ->
  exists ys, comprehension f l = Ok ys /\
             Forall2 (fun x y => f x = Ok y) l ys.
Proof.
  induction 1 as [| x l [y Hy] _ (ys & IH & Hall)].
  - exists []. split; [reflexivity | constructor].
  - exists (y :: ys). cbn [comprehension]. rewrite Hy, IH.
    split; [reflexivity | by constructor].
Qed.

Lemma comprehension_raises {A B : Type} (f : A -> result B)
    (before after : list A) (x : A) (e : exn) :
  f x = Raise e ->
  exists e', comprehension f (before ++ x :: after) = Raise e'.
Proof.
  intros Hx. induction before as [| b before [e' IH]]; cbn [app comprehension].
  - exists e. by rewrite Hx.
  - destruct (f b) as [y | eb]; cbn [bind]; [| by exists eb].
    rewrite IH. by exists e'.
Qed.

Lemma sql_limit_length {A : Type} (limit : Z) (rows : list A) :
  (0 <= limit)%Z ->
  length (sql_limit limit rows) = Nat.min (Z.to_nat limit) (length rows).
Proof.
  intros Hl. unfold sql_limit.
  destruct (Z.ltb_spec limit 0) as [? | _]; [lia |].
  apply length_take.
Qed.

Lemma sql_limit_sublist {A : Type} (limit : Z) (rows : list A) :
  sublist (sql_limit limit rows) rows.
Proof.
  unfold sql_limit. destruct (limit <? 0)%Z; [reflexivity |].
  apply sublist_take.
Qed.

Lemma filter_sublist {A : Type} (f : A -> bool) (l : list A) :
  sublist (List.filter f l) l.
Proof.
  induction l as [| x l IH]; simpl; [constructor |].
  destruct (f x); by constructor.
Qed.

Lemma active_filter_cases (value : option string) :
  (active_filter value = None /\ (value = None \/ value = Some "")) \/
  (exists s, active_filter value = Some s /\ value = Some s /\ s <> "").
Proof.
  destruct value as [s |]; [| left; auto].
  unfold active_filter. destruct (String.eqb_spec s "") as [-> | Hne].
  - left. auto.
  - right. by exists s.
Qed.

Section ReadingProperties.

Variable json_loads : string -> result val.

Lemma gps_query_sublist (table : list (Z * ProcessedGPSData.t)) (limit : Z)
    (area : option string) :
  sublist (gps_query table limit area) table.
Proof.
  unfold gps_query. cbv zeta.
  etransitivity; [apply sql_limit_sublist |].
  destruct (active_filter area); [apply filter_sublist | reflexivity].
Qed.

Lemma taxi_query_sublist (table : list (Z * ProcessedTaxiData.t)) (limit : Z)
    (trip_category : option string) :
  sublist (taxi_query table limit trip_category) table.
Proof.
  unfold taxi_query. cbv zeta.
  etransitivity; [apply sql_limit_sublist |].
  destruct (active_filter trip_category); [apply filter_sublist | reflexivity].
Qed.

Lemma gps_query_matches (table : list (Z * ProcessedGPSData.t)) (limit : Z)
    (a : string) :
  a <> "" ->
  Forall (fun entry => ProcessedGPSData.area_classification entry.2 = a)
    (gps_query table limit (Some a)).
Proof.
  intros Ha. unfold gps_query, active_filter. cbv zeta.
  destruct (String.eqb_spec a "") as [? | _]; [done |].
  apply Forall_forall. intros entry Hin.
  eapply elem_of_sublist in Hin; [| apply sql_limit_sublist].
  apply list_elem_of_In, filter_In in Hin as [_ Heq].
  by apply String.eqb_eq.
Qed.

Lemma taxi_query_matches (table : list (Z * ProcessedTaxiData.t)) (limit : Z)
    (c : string) :
  c <> "" ->
  Forall (fun entry => ProcessedTaxiData.trip_category entry.2 = c)
    (taxi_query table limit (Some c)).
Proof.
  intros Hc. unfold taxi_query, active_filter. cbv zeta.
  destruct (String.eqb_spec c "") as [? | _]; [done |].
  apply Forall_forall. intros entry Hin.
  eapply elem_of_sublist in Hin; [| apply sql_limit_sublist].
  apply list_elem_of_In, filter_In in Hin as [_ Heq].
  by apply String.eqb_eq.
Qed.

Lemma gps_query_unfiltered (table : list (Z * ProcessedGPSData.t)) (limit : Z)
    (area : option string) :
  (0 <= limit)%Z -> area = None \/ area = Some "" ->
  length (gps_query table limit area)
  = Nat.min (Z.to_nat limit) (length table).
Proof.
  intros Hl [-> | ->]; unfold gps_query; cbn; by apply sql_limit_length.
Qed.

Lemma taxi_query_unfiltered (table : list (Z * ProcessedTaxiData.t))
    (limit : Z) (trip_category : option string) :
  (0 <= limit)%Z -> trip_category = None \/ trip_category = Some "" ->
  length (taxi_query table limit trip_category)
  = Nat.min (Z.to_nat limit) (length table).
Proof.
  intros Hl [-> | ->]; unfold taxi_query; cbn; by apply sql_limit_length.
Qed.

Lemma gps_query_length (table : list (Z * ProcessedGPSData.t)) (limit : Z)
    (area : option string) :
  (0 <= limit)%Z ->
  (Z.of_nat (length (gps_query table limit area)) <= limit)%Z.
Proof.
  intros Hl. unfold gps_query. cbv zeta.
  rewrite sql_limit_length by assumption. lia.
Qed.

Lemma taxi_query_length (table : list (Z * ProcessedTaxiData.t)) (limit : Z)
    (trip_category : option string) :
  (0 <= limit)%Z ->
  (Z.of_nat (length (taxi_query table limit trip_category)) <= limit)%Z.
Proof.
  intros Hl. unfold taxi_query. cbv zeta.
  rewrite sql_limit_length by assumption. lia.
Qed.

Lemma gps_item_fields (entry : Z * ProcessedGPSData.t) (v : val) :
  gps_data_item json_loads entry = Ok v ->
  field "id" v = Some (vint entry.1) /\
  field "area_classification" v
    = Some (VStr (ProcessedGPSData.area_classification entry.2)).
Proof.
  destruct entry as [id record]. unfold gps_data_item.
  destruct (load_insights json_loads _) as [ins | e]; cbn [bind];
    [| discriminate].
  intros [= <-]. cbn [field fst snd]. split; by simplify_map_eq.
Qed.

Lemma taxi_item_fields (entry : Z * ProcessedTaxiData.t) (v : val) :
  taxi_data_item json_loads entry = Ok v ->
  field "id" v = Some (vint entry.1) /\
  field "trip_category" v
    = Some (VStr (ProcessedTaxiData.trip_category entry.2)).
Proof.
  destruct entry as [id record]. unfold taxi_data_item.
  destruct (load_insights json_loads _) as [ins | e]; cbn [bind];
    [| discriminate].
  intros [= <-]. cbn [field fst snd]. split; by simplify_map_eq.
Qed.

Lemma get_gps_data_ok (gps_table : list (Z * ProcessedGPSData.t))
    (limit : Z) (area : option string) :
  (0 <= limit)%Z ->
  Forall (fun entry =>
            exists v, load_insights json_loads
                        (ProcessedGPSData.insights entry.2) = Ok v)
    gps_table ->
  exists out selected,
    get_gps_data json_loads gps_table limit area = Ok out /\
    sublist selected gps_table /\
    Forall2 (fun entry v =>
               field "id" v = Some (vint entry.1) /\
               field "area_classification" v
                 = Some (VStr (ProcessedGPSData.area_classification entry.2)))
      selected out /\
    (Z.of_nat (length out) <= limit)%Z /\
    (forall a, area = Some a -> a <> "" ->
       Forall (fun v => field "area_classification" v = Some (VStr a)) out) /\
    (area = None \/ area = Some "" ->
     length out = Nat.min (Z.to_nat limit) (length gps_table)).
Proof.
  intros Hlimit Hgps.
  pose proof (gps_query_sublist gps_table limit area) as Hsub.
  assert (Hsel : Forall (fun entry =>
                           exists v, gps_data_item json_loads entry = Ok v)
                   (gps_query gps_table limit area)).
  { apply Forall_forall. intros [id record] Hin.
    eapply elem_of_sublist in Hin; [| exact Hsub].
    destruct (proj1 (Forall_forall _ _) Hgps _ Hin) as [v Hv].
    simpl in Hv. unfold gps_data_item. rewrite Hv. by eexists. }
  destruct (comprehension_ok _ _ Hsel) as (out & Hout & Hall).
  exists out, (gps_query gps_table limit area).
  pose proof (Forall2_length _ _ _ Hall) as Hlen.
  split; [exact Hout |]. split; [exact Hsub |].
  split; [eapply Forall2_impl; [exact Hall |]; apply gps_item_fields |].
  split; [rewrite <- Hlen; by apply gps_query_length |].
  split.
  - intros a -> Ha.
    pose proof (gps_query_matches gps_table limit a Ha) as Hm.
    eapply Forall2_Forall_r; [exact Hall |].
    eapply Forall_impl; [exact Hm |].
    intros entry <- v Hv. by apply gps_item_fields.
  - intros Hnone. rewrite <- Hlen. by apply gps_query_unfiltered.
Qed.

Lemma get_taxi_data_ok (taxi_table : list (Z * ProcessedTaxiData.t))
    (limit : Z) (trip_category : option string) :
  (0 <= limit)%Z ->
  Forall (fun entry =>
            exists v, load_insights json_loads
                        (ProcessedTaxiData.insights entry.2) = Ok v)
    taxi_table ->
  exists out selected,
    get_taxi_data json_loads taxi_table limit trip_category = Ok out /\
    sublist selected taxi_table /\
    Forall2 (fun entry v =>
               field "id" v = Some (vint entry.1) /\
               field "trip_category" v
                 = Some (VStr (ProcessedTaxiData.trip_category entry.2)))
      selected out /\
    (Z.of_nat (length out) <= limit)%Z /\
    (forall c, trip_category = Some c -> c <> "" ->
       Forall (fun v => field "trip_category" v = Some (VStr c)) out) /\
    (trip_category = None \/ trip_category = Some "" ->
     length out = Nat.min (Z.to_nat limit) (length taxi_table)).
Proof.
  intros Hlimit Htaxi.
  pose proof (taxi_query_sublist taxi_table limit trip_category) as Hsub.
  assert (Hsel : Forall (fun entry =>
                           exists v, taxi_data_item json_loads entry = Ok v)
                   (taxi_query taxi_table limit trip_category)).
  { apply Forall_forall. intros [id record] Hin.
    eapply elem_of_sublist in Hin; [| exact Hsub].
    destruct (proj1 (Forall_forall _ _) Htaxi _ Hin) as [v Hv].
    simpl in Hv. unfold taxi_data_item. rewrite Hv. by eexists. }
  destruct (comprehension_ok _ _ Hsel) as (out & Hout & Hall).
  exists out, (taxi_query taxi_table limit trip_category).
  pose proof (Forall2_length _ _ _ Hall) as Hlen.
  split; [exact Hout |]. split; [exact Hsub |].
  split; [eapply Forall2_impl; [exact Hall |]; apply taxi_item_fields |].
  split; [rewrite <- Hlen; by apply taxi_query_length |].
  split.
  - intros c -> Hc.
    pose proof (taxi_query_matches taxi_table limit c Hc) as Hm.
    eapply Forall2_Forall_r; [exact Hall |].
    eapply Forall_impl; [exact Hm |].
    intros entry <- v Hv. by apply taxi_item_fields.
  - intros Hnone. rewrite <- Hlen. by apply taxi_query_unfiltered.
Qed.


(** X22: The reads have no handler of their own: one stored insights text that
    does not load, among the rows selected, makes the whole read raise. *)
Theorem get_data_raises_on_unreadable_insights
    (gps_before gps_after : list (Z * ProcessedGPSData.t))
    (gps_entry : Z * ProcessedGPSData.t)
    (taxi_before taxi_after : list (Z * ProcessedTaxiData.t))
    (taxi_entry : Z * ProcessedTaxiData.t)
    (limit : Z) (e : exn) :
  ((Z.of_nat (length gps_before) < limit)%Z ->
   load_insights json_loads (ProcessedGPSData.insights gps_entry.2) = Raise e ->
   exists e',
     get_gps_data json_loads (gps_before ++ gps_entry :: gps_after) limit None
     = Raise e') /\
  ((Z.of_nat (length taxi_before) < limit)%Z ->
   load_insights json_loads (ProcessedTaxiData.insights taxi_entry.2) = Raise e ->
   exists e',
     get_taxi_data json_loads (taxi_before ++ taxi_entry :: taxi_after) limit
       None
     = Raise e').
Proof.
  split.
  - intros Hlen He. unfold get_gps_data, gps_query, sql_limit. cbn [active_filter].
    destruct (Z.ltb_spec limit 0) as [? | _]; [lia |].
    rewrite take_app_ge by lia.
    destruct (Z.to_nat limit - length gps_before)%nat as [| k] eqn:Ek; [lia |].
    cbn [take].
    apply (comprehension_raises _ _ _ _ e).
    destruct gps_entry as [id record]. unfold gps_data_item.
    simpl in He. by rewrite He.
  - intros Hlen He. unfold get_taxi_data, taxi_query, sql_limit.
    cbn [active_filter].
    destruct (Z.ltb_spec limit 0) as [? | _]; [lia |].
    rewrite take_app_ge by lia.
    destruct (Z.to_nat limit - length taxi_before)%nat as [| k] eqn:Ek; [lia |].
    cbn [take].
    apply (comprehension_raises _ _ _ _ e).
    destruct taxi_entry as [id record]. unfold taxi_data_item.
    simpl in He. by rewrite He.
Qed.

End ReadingProperties.

(** ** Heat maps *)

Lemma map_filter_sublist {A B : Type} (f : A -> B) (g : A -> bool)
    (l : list A) :
  sublist (map f (List.filter g l)) (map f l).
Proof.
  induction l as [| x l IH]; simpl; [constructor |].
  destruct (g x); simpl; by constructor.
Qed.

Lemma speed_heatmap_filter (rows : list ProcessedGPSData.t) :
  map (fun record =>
         [ProcessedGPSData.lat record; ProcessedGPSData.lng record;
          ProcessedGPSData.spd record])
    (List.filter (fun record => Qgtb (ProcessedGPSData.spd record) 0) rows)
  = List.filter (fun point => Qgtb (weight point) 0)
      (map (fun record =>
              [ProcessedGPSData.lat record; ProcessedGPSData.lng record;
               ProcessedGPSData.spd record]) rows).
Proof.
  induction rows as [| r rows IH]; [reflexivity |].
  cbn [List.filter map]. unfold weight at 1. cbn [nth].
  destruct (Qgtb (ProcessedGPSData.spd r) 0); cbn [map]; by rewrite IH.
Qed.

(** X16: Whatever type is asked for, the heat-map endpoint answers with points
    of three coordinates whose positions are positions of stored GPS
    points, in table order; the speed and altitude maps hold positive
    weights only, the speed map being the density map without the points at
    rest; every other type, misspelt ones included, gives the density
    map. *)
Theorem heatmap_endpoint (heatmap_type : string) (db : Session) :
  let points := main.get_heatmap_data heatmap_type db in
  sublist (map position points) (map position (get_heatmap_data db)) /\
  Forall (fun point => length point = 3%nat) points /\
  (heatmap_type = "speed" \/ heatmap_type = "altitude" ->
   Forall (fun point => 0 < weight point) points) /\
  (heatmap_type = "speed" ->
   points = List.filter (fun point => Qgtb (weight point) 0)
              (get_heatmap_data db)) /\
  (heatmap_type <> "speed" -> heatmap_type <> "altitude" ->
   points = get_heatmap_data db).
Proof.
  cbv zeta. unfold main.get_heatmap_data.
  destruct (String.eqb_spec heatmap_type "speed") as [-> | Hs];
    [| destruct (String.eqb_spec heatmap_type "altitude") as [-> | Ha]].
  - unfold get_speed_heatmap_data, get_heatmap_data.
    split; [rewrite !map_map; apply map_filter_sublist |].
    split; [apply Forall_forall; intros p Hp;
            apply list_elem_of_In, in_map_iff in Hp as (r & <- & _);
            reflexivity |].
    split; [| split; [intros _; apply speed_heatmap_filter | done]].
    intros _. apply Forall_forall. intros p Hp.
    apply list_elem_of_In, in_map_iff in Hp as (r & <- & Hr).
    apply filter_In in Hr as [_ Hr]. by apply Qgtb_gt.
  - unfold get_altitude_heatmap_data, get_heatmap_data.
    split; [rewrite !map_map; apply map_filter_sublist |].
    split; [apply Forall_forall; intros p Hp;
            apply list_elem_of_In, in_map_iff in Hp as (r & <- & _);
            reflexivity |].
    split; [| split; [discriminate | done]].
    intros _. apply Forall_forall. intros p Hp.
    apply list_elem_of_In, in_map_iff in Hp as (r & <- & Hr).
    apply filter_In in Hr as [_ Hr]. by apply Qgtb_gt.
  - split; [reflexivity |].
    split; [apply Forall_forall; intros p Hp;
            apply list_elem_of_In, in_map_iff in Hp as (r & <- & _);
            reflexivity |].
    split; [intros [? | ?]; done |].
    split; [done | reflexivity].
Qed.

(** X15: The average speed that the aggregator reports is the mean of the
    weights of the speed heat map: both read the same points, those with a
    positive speed. *)
Theorem avg_speed_is_mean_of_speed_heatmap (db : Session) :
  exists m : gmap string val,
    calculate_aggregate_metrics db = Ok m /\
    metric m "avg_speed_mps" (mean (map weight (get_speed_heatmap_data db))).
Proof.
  destruct (calculate_aggregate_metrics_returns db)
    as (avg_speed & avg_fare & avg_duration & avg_distance
        & Hs & _ & _ & _ & Hm).
  cbv zeta in Hm. eexists. split; [exact Hm |].
  metric_now. rewrite Hs.
  unfold get_speed_heatmap_data. rewrite map_map.
  unfold weight. cbn [nth].
  unfold positive_speeds. rewrite <- filter_spd_positive. reflexivity.
Qed.

(** ** The background task *)

Section BackgroundProperties.

Context {World Db : Type}.
Variable utcnow_isoformat : World -> string.
Variable run_process_all_data : World -> result (list val * list val) * World.
Variable db_save_gps_data : list val -> Db -> result Z * Db.
Variable db_save_taxi_data : list val -> Db -> result Z * Db.
Variable db_calculate_aggregate_metrics : Db -> result (gmap string val).
Variable db_save_analytics_metrics : gmap string val -> Db -> result Z * Db.

Local Abbreviation run :=
  (process_data_background utcnow_isoformat run_process_all_data
     db_save_gps_data db_save_taxi_data db_calculate_aggregate_metrics
     db_save_analytics_metrics).

Ltac background_cases s :=
  unfold process_data_background, background_try;
  destruct (run_process_all_data (world s)) as [[[gps_data taxi_data] | e] w];
    [destruct (db_save_gps_data gps_data (session s)) as [[gps_saved | e] db1];
       [destruct (db_save_taxi_data taxi_data db1)
          as [[taxi_saved | e] db2];
          [destruct (db_calculate_aggregate_metrics db2) as [metrics | e];
             [destruct (db_save_analytics_metrics metrics db2)
                as [[n | e] db3] | ] | ] | ] | ];
  cbn [processing_status session world].

(** X24: However the task ends, it leaves [is_processing] false: either with
    status "completed", progress 100 and the two saved counts, when every
    step returned, or with status "error", progress 0 and the message of the
    exception. *)
Theorem background_task_releases (s : app_state) :
  let status := processing_status (run s) in
  status !! "is_processing" = Some (VBool false) /\
  is_Some (status !! "last_updated") /\
  ((status !! "status" = Some (VStr "completed") /\
    status !! "progress" = Some (vint 100) /\
    exists gps_saved taxi_saved : Z,
      status !! "gps_saved" = Some (vint gps_saved) /\
      status !! "taxi_saved" = Some (vint taxi_saved)) \/
   (status !! "status" = Some (VStr "error") /\
    status !! "progress" = Some (vint 0) /\
    exists msg : string, status !! "error" = Some (VStr msg))).
Proof.
  cbv zeta. background_cases s;
    (split; [by simplify_map_eq |]);
    (split; [by simplify_map_eq |]);
    first [ left; split; [by simplify_map_eq |];
            split; [by simplify_map_eq |];
            eexists _, _; split; by simplify_map_eq
          | right; split; [by simplify_map_eq |];
            split; [by simplify_map_eq |];
            eexists; by simplify_map_eq ].
Qed.

(** X25: The status is only ever updated, never cleared: a run that completes
    leaves the [error] message of an earlier failed run in place, a run
    that fails leaves the saved counts of an earlier run in place, and keys
    the task does not write are kept as they were. *)
Theorem background_task_keeps_stale_keys (s : app_state) :
  let before := processing_status s in
  let status := processing_status (run s) in
  (status !! "status" = Some (VStr "completed") ->
   status !! "error" = before !! "error") /\
  (status !! "status" = Some (VStr "error") ->
   status !! "gps_saved" = before !! "gps_saved" /\
   status !! "taxi_saved" = before !! "taxi_saved") /\
  (forall k : string, ~ In k status_keys -> status !! k = before !! k).
Proof.
  cbv zeta. background_cases s.
  all: split; [intros Hst; by simplify_map_eq |].
  all: split; [intros Hst; by simplify_map_eq |].
  all: intros k Hk; cbn [status_keys In] in Hk;
    rewrite !lookup_insert_ne by (intros <-; apply Hk; auto 12);
    reflexivity.
Qed.

End BackgroundProperties.

(** ** Classifier rules: the remaining partitions *)

(** X1: [activity] sends speeds above 10 to High, speeds in (3, 10] to Medium
    and speeds of 3 or less to Low; the boundary 10 is Medium and the
    boundary 3 is Low. *)
Theorem classify_activity_partition (speed : Q) :
  (10 < speed -> _classify_activity speed = "High") /\
  (3 < speed <= 10 -> _classify_activity speed = "Medium") /\
  (speed <= 3 -> _classify_activity speed = "Low") /\
  _classify_activity 10 = "Medium" /\
  _classify_activity 3 = "Low".
Proof.
  repeat split; try reflexivity; intros H; unfold _classify_activity; qcase;
    first [reflexivity | exfalso; lra].
Qed.

(** X2: [trip_length] sends durations below 10 to Short, durations in [10, 30)
    to Medium and durations of 30 or more to Long; the boundary 10 is
    Medium and the boundary 30 is Long. *)
Theorem classify_trip_duration_partition (duration : Q) :
  (duration < 10 -> _classify_trip_duration duration = "Short") /\
  (10 <= duration < 30 -> _classify_trip_duration duration = "Medium") /\
  (30 <= duration -> _classify_trip_duration duration = "Long") /\
  _classify_trip_duration 10 = "Medium" /\
  _classify_trip_duration 30 = "Long".
Proof.
  repeat split; try reflexivity; intros H; unfold _classify_trip_duration;
    qcase; first [reflexivity | exfalso; lra].
Qed.

(** X5: Each clamp of the efficiency score guards one side only: the score is
    at least 0 for every non-negative speed and at most 1 for every duration
    of 15 minutes or more, whatever the other argument; it exceeds 1 for a
    speed of 60 or more on a trip shorter than 15 minutes, and it is
    negative for a negative speed on a trip of 45 minutes or more. *)
Theorem calculate_efficiency_one_sided (speed duration : Q) :
  (0 <= speed -> 0 <= _calculate_efficiency speed duration) /\
  (15 <= duration -> _calculate_efficiency speed duration <= 1) /\
  (60 <= speed -> duration < 15 ->
   1 < _calculate_efficiency speed duration) /\
  (speed < 0 -> 45 <= duration ->
   _calculate_efficiency speed duration < 0).
Proof.
  unfold _calculate_efficiency. cbv zeta.
  set (speed_score := Qmin (speed / 60) 1.0).
  set (duration_score := Qmax 0 (1 - (duration - 15) / 30)).
  assert (Hhalf : forall x, (0 <= x -> 0 <= x / 2) /\ (x <= 2 -> x / 2 <= 1) /\
                            (2 < x -> 1 < x / 2) /\ (x < 0 -> x / 2 < 0)).
  { intros x. repeat split; intros Hx.
    - apply Qle_shift_div_l; lra.
    - apply Qle_shift_div_r; lra.
    - apply Qlt_shift_div_l; lra.
    - apply Qlt_shift_div_r; lra. }
  assert (Hs1 : speed_score <= 1)
    by (pose proof (Q.le_min_r (speed / 60) 1.0); unfold speed_score; lra).
  assert (Hd0 : 0 <= duration_score) by apply Q.le_max_l.
  repeat split.
  - intros Hs. apply Hhalf.
    assert (0 <= speed_score).
    { apply Q.min_glb; [apply Qle_shift_div_l; lra | lra]. }
    lra.
  - intros Hd. apply Hhalf.
    assert (duration_score <= 1).
    { apply Q.max_lub; [lra |].
      assert (0 <= (duration - 15) / 30) by (apply Qle_shift_div_l; lra).
      lra. }
    lra.
  - intros Hs Hd. apply Hhalf.
    assert (1 <= speed_score).
    { apply Q.min_glb; [apply Qle_shift_div_l; lra | lra]. }
    assert (1 < duration_score).
    { eapply Qlt_le_trans; [| apply Q.le_max_r].
      assert ((duration - 15) / 30 < 0) by (apply Qlt_shift_div_r; lra).
      lra. }
    lra.
  - intros Hs Hd. apply Hhalf.
    assert (speed_score < 0).
    { eapply Qle_lt_trans; [apply Q.le_min_l |].
      apply Qlt_shift_div_r; lra. }
    assert (duration_score <= 0).
    { apply Q.max_lub; [lra |].
      assert (1 <= (duration - 15) / 30) by (apply Qle_shift_div_l; lra).
      lra. }
    lra.
Qed.

(** ** Metrics that are bare numbers *)

(** X19: A mapping from names to bare numbers, which is what both callers of
    [save_analytics_metrics] pass, is skipped item by item: the count is 0
    and the session is left as it was. *)
Theorem numeric_metrics_are_never_saved (utcnow : string)
    (metrics : gmap string val) (db : Session)
    (Hnum : map_Forall (fun _ v => exists n : num, v = VNum n) metrics) :
  save_analytics_metrics utcnow metrics db = (0%Z, db).
Proof.
  unfold save_analytics_metrics.
  rewrite save_loop_skips_numbers.
  - destruct db; simpl. by rewrite app_nil_r.
  - apply map_Forall_to_list in Hnum.
    eapply Forall_impl; [exact Hnum |].
    intros [name v]. simpl. auto.
Qed.

(** ** The further theorems at sample inputs *)

Import Samples.

Lemma basic_metrics_numeric :
  map_Forall (fun _ v => exists n : num, v = VNum n) basic_metrics.
Proof.
  unfold basic_metrics.
  repeat (apply map_Forall_insert_2; [by eexists |]).
  apply map_Forall_empty.
Qed.

Lemma numeric_metrics_are_never_saved_witness :
  map_Forall (fun _ v => exists n : num, v = VNum n) basic_metrics /\
  save_analytics_metrics "2024-05-01T12:00:00" basic_metrics empty_corpus
  = (0%Z, empty_corpus).
Proof.
  split; [exact basic_metrics_numeric |].
  exact (numeric_metrics_are_never_saved "2024-05-01T12:00:00" basic_metrics
           empty_corpus basic_metrics_numeric).
Defined.






Lemma structured_metrics_fit :
  map_Forall (fun _ v => exists d, v = VDict d /\ fits_metric_columns d)
    structured_metrics.
Proof.
  unfold structured_metrics. apply map_Forall_singleton.
  exists speed_metric. split; [reflexivity |].
  unfold fits_metric_columns, speed_metric.
  split; [right; right; eexists; by simplify_map_eq |].
  split; right; eexists; by simplify_map_eq.
Qed.

Lemma metrics_round_trip_witness :
  analytics_metrics corpus = [] /\
  map_Forall (fun _ v => exists d, v = VDict d /\ fits_metric_columns d)
    structured_metrics /\
  (save_analytics_metrics "2024-05-01T12:00:00" structured_metrics corpus).1
  = Z.of_nat (size structured_metrics).
Proof.
  split; [reflexivity |]. split; [exact structured_metrics_fit |].
  exact (proj1 (metrics_round_trip "2024-05-01T12:00:00" structured_metrics
                  corpus eq_refl structured_metrics_fit)).
Defined.

Lemma gps_rows_load :
  Forall (fun entry =>
            exists v, load_insights toy_json_loads
                        (ProcessedGPSData.insights entry.2) = Ok v)
    gps_rows.
Proof. repeat constructor; by eexists. Qed.

Lemma taxi_rows_load :
  Forall (fun entry =>
            exists v, load_insights toy_json_loads
                        (ProcessedTaxiData.insights entry.2) = Ok v)
    taxi_rows.
Proof. repeat constructor; by eexists. Qed.


(** ** The analysis endpoints *)

Section AnalysisProperties.

Variable json_loads : string -> result val.

Lemma labelled_gps_read (table : list (Z * ProcessedGPSData.t))
    (limit : Z) (a : string) :
  (0 <= limit)%Z -> a <> "" ->
  Forall (fun entry =>
            exists v, load_insights json_loads
                        (ProcessedGPSData.insights entry.2) = Ok v) table ->
  exists out,
    get_gps_data json_loads table limit (Some a) = Ok out /\
    (Z.of_nat (length out) <= limit)%Z /\
    Forall (fun v => field "area_classification" v = Some (VStr a)) out.
Proof.
  intros Hl Ha Hload.
  destruct (get_gps_data_ok json_loads table limit (Some a) Hl Hload)
    as (out & _ & Hout & _ & _ & Hlen & Harea & _).
  exists out. split; [exact Hout |]. split; [exact Hlen |].
  by apply Harea.
Qed.

Lemma labelled_taxi_read (table : list (Z * ProcessedTaxiData.t))
    (limit : Z) (c : string) :
  (0 <= limit)%Z -> c <> "" ->
  Forall (fun entry =>
            exists v, load_insights json_loads
                        (ProcessedTaxiData.insights entry.2) = Ok v) table ->
  exists out,
    get_taxi_data json_loads table limit (Some c) = Ok out /\
    (Z.of_nat (length out) <= limit)%Z /\
    Forall (fun v => field "trip_category" v = Some (VStr c)) out.
Proof.
  intros Hl Hc Hload.
  destruct (get_taxi_data_ok json_loads table limit (Some c) Hl Hload)
    as (out & _ & Hout & _ & _ & Hlen & Hcat & _).
  exists out. split; [exact Hout |]. split; [exact Hlen |].
  by apply Hcat.
Qed.

(** X23: When every stored insights text is empty or loads, the area analysis
    answers with exactly the keys North, Center and South, each with at most
    500 records that all carry that area, and the trip analysis with
    exactly Short, Medium and Long, each with at most 200 records of that
    category; a record with any other label appears under no key. *)
Theorem analysis_by_label
    (gps_table : list (Z * ProcessedGPSData.t))
    (taxi_table : list (Z * ProcessedTaxiData.t))
    (Hgps : Forall (fun entry =>
                      exists v, load_insights json_loads
                                  (ProcessedGPSData.insights entry.2) = Ok v)
              gps_table)
    (Htaxi : Forall (fun entry =>
                       exists v, load_insights json_loads
                                   (ProcessedTaxiData.insights entry.2) = Ok v)
               taxi_table) :
  (exists (data : gmap string val) (north center south : list val),
     get_area_analysis json_loads gps_table = Ok data /\
     data !! "North" = Some (VList north) /\
     data !! "Center" = Some (VList center) /\
     data !! "South" = Some (VList south) /\
     (forall k, is_Some (data !! k) -> In k ["North"; "Center"; "South"]) /\
     Forall (fun v => field "area_classification" v = Some (VStr "North"))
       north /\
     Forall (fun v => field "area_classification" v = Some (VStr "Center"))
       center /\
     Forall (fun v => field "area_classification" v = Some (VStr "South"))
       south /\
     (length north <= 500 /\ length center <= 500 /\ length south <= 500)%nat) /\
  (exists (data : gmap string val) (short medium long : list val),
     get_trip_analysis json_loads taxi_table = Ok data /\
     data !! "Short" = Some (VList short) /\
     data !! "Medium" = Some (VList medium) /\
     data !! "Long" = Some (VList long) /\
     (forall k, is_Some (data !! k) -> In k ["Short"; "Medium"; "Long"]) /\
     Forall (fun v => field "trip_category" v = Some (VStr "Short")) short /\
     Forall (fun v => field "trip_category" v = Some (VStr "Medium")) medium /\
     Forall (fun v => field "trip_category" v = Some (VStr "Long")) long /\
     (length short <= 200 /\ length medium <= 200 /\ length long <= 200)%nat).
Proof.
  split.
  - destruct (labelled_gps_read gps_table 500 "North" ltac:(lia)
                ltac:(discriminate) Hgps) as (north & Hn & Ln & Fn).
    destruct (labelled_gps_read gps_table 500 "Center" ltac:(lia)
                ltac:(discriminate) Hgps) as (center & Hc & Lc & Fc).
    destruct (labelled_gps_read gps_table 500 "South" ltac:(lia)
                ltac:(discriminate) Hgps) as (south & Hs & Ls & Fs).
    eexists _, north, center, south.
    unfold get_area_analysis. cbv zeta. cbn [analysis_loop].
    rewrite Hn. cbn [bind]. rewrite Hc. cbn [bind]. rewrite Hs. cbn [bind].
    split; [reflexivity |].
    do 3 (split; [by simplify_map_eq |]).
    split.
    { intros k. rewrite <- elem_of_dom, !dom_insert_L, dom_empty_L.
      rewrite <- list_elem_of_In.
      rewrite !elem_of_union, !elem_of_singleton, !elem_of_cons, elem_of_nil,
        elem_of_empty.
      tauto. }
    do 3 (split; [assumption |]). lia.
  - destruct (labelled_taxi_read taxi_table 200 "Short" ltac:(lia)
                ltac:(discriminate) Htaxi) as (short & Hs & Ls & Fs).
    destruct (labelled_taxi_read taxi_table 200 "Medium" ltac:(lia)
                ltac:(discriminate) Htaxi) as (medium & Hm & Lm & Fm).
    destruct (labelled_taxi_read taxi_table 200 "Long" ltac:(lia)
                ltac:(discriminate) Htaxi) as (long & Hl & Ll & Fl).
    eexists _, short, medium, long.
    unfold get_trip_analysis. cbv zeta. cbn [analysis_loop].
    rewrite Hs. cbn [bind]. rewrite Hm. cbn [bind]. rewrite Hl. cbn [bind].
    split; [reflexivity |].
    do 3 (split; [by simplify_map_eq |]).
    split.
    { intros k. rewrite <- elem_of_dom, !dom_insert_L, dom_empty_L.
      rewrite <- list_elem_of_In.
      rewrite !elem_of_union, !elem_of_singleton, !elem_of_cons, elem_of_nil,
        elem_of_empty.
      tauto. }
    do 3 (split; [assumption |]). lia.
Qed.

End AnalysisProperties.

Lemma analysis_by_label_witness :
  Forall (fun entry =>
            exists v, load_insights toy_json_loads
                        (ProcessedGPSData.insights entry.2) = Ok v)
    gps_rows /\
  Forall (fun entry =>
            exists v, load_insights toy_json_loads
                        (ProcessedTaxiData.insights entry.2) = Ok v)
    taxi_rows /\
  exists (data : gmap string val) (center : list val),
    get_area_analysis toy_json_loads gps_rows = Ok data /\
    data !! "Center" = Some (VList center) /\
    Forall (fun v => field "area_classification" v = Some (VStr "Center"))
      center.
Proof.
  destruct (proj1 (analysis_by_label toy_json_loads gps_rows taxi_rows
                     gps_rows_load taxi_rows_load))
    as (data & north & center & south & Hd & _ & Hc & _ & _ & _ & Fc & _).
  split; [exact gps_rows_load |]. split; [exact taxi_rows_load |].
  exists data, center. split; [exact Hd |]. split; [exact Hc | exact Fc].
Defined.
